(** * Joy Streak Bot: progression curve, streak ledger and aggregate streak

    A shallow embedding of the progression logic of [database.py]
    (class [Database]) and of the sticker handler and the coin claim of
    [joy_streak_bot.py].

    Conventions.
    - Python integers and the INTEGER / BIGINT columns are [Z]; the
      32-bit range of an INTEGER column, and the transaction of the
      connection, are in [Pg].
    - A [date] is its proleptic ordinal, a [Z]; [d - timedelta(days=1)]
      is [d - 1].
    - A nullable column is an [option].
    - The [users] table is a finite map keyed by its primary key
      [discord_id]; [daily_senders] is the list of its rows. *)

From stdpp Require Import gmap strings list list_numbers fin_maps.
From Stdlib Require Import ZArith Lia.

Open Scope Z_scope.

(** ** Curve calculator ([database.py], lines 198-271) *)

Module Curve.

(** Python's [range(lo, hi)]. *)
Definition range (lo hi : Z) : list Z := seqZ lo (hi - lo).

(** One iteration of the body of the [for] loop of
    [calculate_xp_for_level]. *)
Definition xp_step (total_xp lvl : Z) : Z :=
  if bool_decide (lvl ≤ 16) then total_xp + 60
  else if bool_decide (lvl ≤ 36) then total_xp + 90
  else total_xp + 120.

(** [calculate_xp_for_level]: early return for level 1, otherwise the
    accumulator loop over [range(2, level + 1)]. *)
Definition calculate_xp_for_level (level : Z) : Z :=
  if bool_decide (level = 1) then 0
  else foldl xp_step 0 (range 2 (level + 1)).

(** The [while] loop of [calculate_level_from_xp], started at [level];
    [None] when the iteration budget [fuel] is exhausted before the loop
    condition fails. *)
Fixpoint level_loop (fuel : nat) (xp level : Z) : option Z :=
  match fuel with
  | O => None
  | S fuel' =>
      if bool_decide (calculate_xp_for_level (level + 1) ≤ xp)
      then level_loop fuel' xp (level + 1)
      else Some level
  end.

(** An iteration budget that always suffices: every step costs at
    least 60, so fewer than [xp / 60 + 1] increments happen. *)
Definition level_fuel (xp : Z) : nat := S (Z.to_nat (xp `div` 60)).

(** [calculate_level_from_xp]: [level = 1], then the loop. *)
Definition calculate_level_from_xp (xp : Z) : Z :=
  default 1 (level_loop (level_fuel xp) xp 1).

(** The literal dict [class_hp] of [calculate_max_hp], as
    (base, per_level) pairs. *)
Definition class_hp : gmap string (Z * Z) :=
  list_to_map
    [ ("joy_keeper", (80, 8));
      ("chud_warrior", (120, 12));
      ("achievement_hunter", (90, 9));
      ("pit_wizard", (70, 7));
      ("gladiator_of_the_pit", (110, 11)) ].

(** Python truthiness of an [Optional[str]]: [None] and the empty string
    are falsy. *)
Definition truthy (s : option string) : bool :=
  match s with
  | None => false
  | Some c => negb (bool_decide (c = ""))
  end.

(** [calculate_max_hp]. *)
Definition calculate_max_hp (level : Z) (user_class : option string) : Z :=
  if negb (truthy user_class)
     || bool_decide (user_class = Some "peasant")
     || bool_decide (level < 3)
  then level * 10
  else
    match user_class ≫= (λ c, class_hp !! c) with
    | Some (base, per_level) => base + (level - 3) * per_level
    | None => level * 10
    end.

(** *** The curve as the specification words it *)

(** Cost of reaching level [s] from level [s - 1]. *)
Definition step_cost (s : Z) : Z :=
  if bool_decide (2 ≤ s ≤ 16) then 60
  else if bool_decide (17 ≤ s ≤ 36) then 90
  else if bool_decide (36 < s) then 120
  else 0.

(** Sum of the costs of the [n] steps [from], [from + 1], ... *)
Fixpoint sum_steps (n : nat) (from : Z) : Z :=
  match n with
  | O => 0
  | S n' => step_cost from + sum_steps n' (from + 1)
  end.

(** Total experience for level [L]: the steps 2 up to [L]. *)
Definition ExperienceForLevel (L : Z) : Z := sum_steps (Z.to_nat (L - 1)) 2.

(** Closed form of the running total, by tier. *)
Definition xp_closed (L : Z) : Z :=
  if bool_decide (L ≤ 16) then 60 * (L - 1)
  else if bool_decide (L ≤ 36) then 900 + 90 * (L - 16)
  else 2700 + 120 * (L - 36).

End Curve.

(** ** Tables ([database.py], [init_database]) *)

(** A row of [users]. The timestamp columns [created_at] and
    [updated_at] are left out: no decision of the program reads them. *)
Module User.
Record t : Type := mk {
  discord_id : Z;
  username : string;
  level : Z;
  xp : Z;
  hp : Z;
  max_hp : Z;
  coins : Z;
  streak : Z;
  depth : Z;
  user_class : option string;
  last_joy_sent : option Z;
  last_coin_claim : option Z
}.
End User.

(** The row of [server_stats] (its key is fixed: [CHECK (id = 1)]). *)
Module Stats.
Record t : Type := mk {
  server_streak : Z;
  last_joy_sent : option Z;
  total_monsters_killed : Z
}.
End Stats.

(** What the bot sends to the chat platform, with the numbers that are
    interpolated in the text. *)
Inductive Reaction : Type := BrokenHeart | CheckMark.

Inductive Effect : Type :=
  | AddReaction (r : Reaction)
  | SendStreakBrokenTwice (old_streak : Z)
  | SendStreakBrokenMissed (old_streak xp_lost : Z)
  | SendServerStreakBroken (old_server_streak : Z)
  | SendResponse (xp_reward : Z) (level_up : option Z) (milestone : option Z)
  | SendAlreadyClaimed
  | SendCoinsClaimed (coins_earned new_coins : Z).

Record Database : Type := mkDatabase {
  users : gmap Z User.t;
  daily_senders : list (Z * Z);
  server_stats : option Stats.t
}.

(** The state threaded through a handler: the store and the messages
    sent so far (oldest first). *)
Record World : Type := mkWorld {
  db : Database;
  outbox : list Effect
}.

(** The entries of [config.json] read by the modelled code. *)
Record Config : Type := mkConfig {
  wrong_channel_xp_loss : Z;
  joy_base_xp : Z;
  daily_coins_per_level : Z
}.

(** ** State and exception monad *)

Inductive Exn : Type := TypeError | UniqueViolation | NumericValueOutOfRange.

Inductive result (A : Type) : Type :=
  | Ok (a : A)
  | Raise (e : Exn).
Arguments Ok {A} a.
Arguments Raise {A} e.

(** The world reached when an exception is raised is kept: what the
    queries before it wrote stays written. *)
Definition M (A : Type) : Type := World → result A * World.

Global Instance M_ret : MRet M := λ A a w, (Ok a, w).
Global Instance M_bind : MBind M := λ A B f m w,
  match m w with
  | (Ok a, w') => f a w'
  | (Raise e, w') => (Raise e, w')
  end.

Definition raise {A} (e : Exn) : M A := λ w, (Raise e, w).
Definition get_db : M Database := λ w, (Ok (db w), w).
Definition put_db (d : Database) : M unit :=
  λ w, (Ok (), mkWorld d (outbox w)).
Definition send (e : Effect) : M unit :=
  λ w, (Ok (), mkWorld (db w) (outbox w ++ [e])).

(** [o[key]] on a value that may be [None]. *)
Definition subscript {A} (o : option A) : M A :=
  match o with
  | Some a => mret a
  | None => raise TypeError
  end.

Definition exec {A} (m : M A) (w : World) : World := (m w).2.
Definition eval {A} (m : M A) (w : World) : result A := (m w).1.

(** Python's [pass]: an absent [else] branch. *)
Definition pass : M unit := mret ().

(** ** Repository operations ([database.py]) *)

Module Db.
Import Curve.

(** A keyword argument of [update_user]: a column and its new value. *)
Inductive Assign : Type :=
  | level_ (v : Z)
  | xp_ (v : Z)
  | hp_ (v : Z)
  | max_hp_ (v : Z)
  | coins_ (v : Z)
  | streak_ (v : Z)
  | user_class_ (v : option string)
  | last_joy_sent_ (v : option Z)
  | last_coin_claim_ (v : option Z).

Definition assign (u : User.t) (a : Assign) : User.t :=
  let i := User.discord_id u in
  let n := User.username u in
  let l := User.level u in
  let x := User.xp u in
  let h := User.hp u in
  let mh := User.max_hp u in
  let c := User.coins u in
  let s := User.streak u in
  let d := User.depth u in
  let uc := User.user_class u in
  let lj := User.last_joy_sent u in
  let lc := User.last_coin_claim u in
  match a with
  | level_ v => User.mk i n v x h mh c s d uc lj lc
  | xp_ v => User.mk i n l v h mh c s d uc lj lc
  | hp_ v => User.mk i n l x v mh c s d uc lj lc
  | max_hp_ v => User.mk i n l x h v c s d uc lj lc
  | coins_ v => User.mk i n l x h mh v s d uc lj lc
  | streak_ v => User.mk i n l x h mh c v d uc lj lc
  | user_class_ v => User.mk i n l x h mh c s d v lj lc
  | last_joy_sent_ v => User.mk i n l x h mh c s d uc v lc
  | last_coin_claim_ v => User.mk i n l x h mh c s d uc lj v
  end.

(** A keyword argument of [update_server_stats]. *)
Inductive StatsAssign : Type :=
  | server_streak_ (v : Z)
  | stats_last_joy_sent_ (v : option Z).

Definition stats_assign (s : Stats.t) (a : StatsAssign) : Stats.t :=
  match a with
  | server_streak_ v =>
      Stats.mk v (Stats.last_joy_sent s) (Stats.total_monsters_killed s)
  | stats_last_joy_sent_ v =>
      Stats.mk (Stats.server_streak s) v (Stats.total_monsters_killed s)
  end.

(** [get_user]: the row, or [None]. *)
Definition get_user (discord_id : Z) : M (option User.t) :=
  d ← get_db; mret (users d !! discord_id).

(** The row inserted by [create_user]; the columns the INSERT does not
    name take the defaults of the schema. *)
Definition default_user (discord_id : Z) (username : string) : User.t :=
  User.mk discord_id username 1 0 100 100 0 0 0 None None None.

(** [create_user]: INSERT ... RETURNING *; the primary key rejects a
    second row for the same id. *)
Definition create_user (discord_id : Z) (username : string) : M User.t :=
  d ← get_db;
  match users d !! discord_id with
  | Some _ => raise UniqueViolation
  | None =>
      let row := default_user discord_id username in
      put_db (mkDatabase (<[discord_id := row]> (users d))
                         (daily_senders d) (server_stats d));;
      mret row
  end.

(** [get_or_create_user]. *)
Definition get_or_create_user (discord_id : Z) (username : string)
  : M User.t :=
  user ← get_user discord_id;
  match user with
  | None => create_user discord_id username
  | Some u => mret u
  end.

(** [update_user]: UPDATE users SET ... WHERE discord_id = %s; no row
    matches when the user is absent. The values are stored as given:
    the range of the INTEGER columns is checked in [Pg.update_user]. *)
Definition update_user (discord_id : Z) (kwargs : list Assign) : M unit :=
  d ← get_db;
  put_db (mkDatabase (alter (λ u, foldl assign u kwargs) discord_id (users d))
                     (daily_senders d) (server_stats d)).

(** The dict returned by [add_xp]. *)
Record XpResult : Type := mkXpResult {
  old_level : Z;
  new_level : Z;
  res_xp : Z;
  leveled_up : bool;
  res_max_hp : Z
}.

(** [add_xp]. *)
Definition add_xp (discord_id xp_amount : Z) : M (option XpResult) :=
  user ← get_user discord_id;
  match user with
  | None => mret None
  | Some user =>
      let new_xp := 0 `max` (User.xp user + xp_amount) in
      let old_level := User.level user in
      let new_level := calculate_level_from_xp new_xp in
      let new_max_hp :=
        if bool_decide (new_level ≠ old_level)
        then calculate_max_hp new_level (User.user_class user)
        else User.max_hp user in
      update_user discord_id [xp_ new_xp; level_ new_level; max_hp_ new_max_hp];;
      mret (Some (mkXpResult old_level new_level new_xp
                    (bool_decide (old_level < new_level)) new_max_hp))
  end.

(** The dicts returned by [damage_user] and [heal_user]. *)
Record DamageResult : Type := mkDamageResult {
  dmg_old_hp : Z; dmg_new_hp : Z; dmg_damage : Z; died : bool
}.
Record HealResult : Type := mkHealResult {
  heal_old_hp : Z; heal_new_hp : Z; healed : Z
}.

(** [damage_user]. *)
Definition damage_user (discord_id damage : Z) : M (option DamageResult) :=
  user ← get_user discord_id;
  match user with
  | None => mret None
  | Some user =>
      let new_hp := 0 `max` (User.hp user - damage) in
      update_user discord_id [hp_ new_hp];;
      mret (Some (mkDamageResult (User.hp user) new_hp damage
                    (bool_decide (new_hp = 0))))
  end.

(** [heal_user]. *)
Definition heal_user (discord_id amount : Z) : M (option HealResult) :=
  user ← get_user discord_id;
  match user with
  | None => mret None
  | Some user =>
      let new_hp := User.max_hp user `min` (User.hp user + amount) in
      update_user discord_id [hp_ new_hp];;
      mret (Some (mkHealResult (User.hp user) new_hp (new_hp - User.hp user)))
  end.

(** [set_user_class]. *)
Definition set_user_class (discord_id : Z) (class_name : string) : M unit :=
  user ← get_user discord_id;
  match user with
  | None => mret ()
  | Some user =>
      let new_max_hp := calculate_max_hp (User.level user) (Some class_name) in
      update_user discord_id
        [user_class_ (Some class_name); max_hp_ new_max_hp; hp_ new_max_hp]
  end.

(** [check_daily_sender]. *)
Definition check_daily_sender (discord_id check_date : Z) : M bool :=
  d ← get_db; mret (bool_decide ((discord_id, check_date) ∈ daily_senders d)).

(** [add_daily_sender]: INSERT ... ON CONFLICT DO NOTHING. *)
Definition add_daily_sender (discord_id send_date : Z) : M unit :=
  d ← get_db;
  if bool_decide ((discord_id, send_date) ∈ daily_senders d) then mret ()
  else put_db (mkDatabase (users d)
                 (daily_senders d ++ [(discord_id, send_date)])
                 (server_stats d)).

(** [get_server_stats]. *)
Definition get_server_stats : M (option Stats.t) :=
  d ← get_db; mret (server_stats d).

(** [update_server_stats]. *)
Definition update_server_stats (kwargs : list StatsAssign) : M unit :=
  d ← get_db;
  put_db (mkDatabase (users d) (daily_senders d)
            ((λ s, foldl stats_assign s kwargs) <$> server_stats d)).

(** [reset_user]: DELETE FROM users WHERE discord_id = %s. *)
Definition reset_user (discord_id : Z) : M unit :=
  d ← get_db;
  put_db (mkDatabase (delete discord_id (users d))
            (daily_senders d) (server_stats d)).

(** [reset_daily_senders]: DELETE ... WHERE date < CURRENT_DATE -
    INTERVAL '7 days'. [current_date] is CURRENT_DATE of the database
    server. *)
Definition reset_daily_senders (current_date : Z) : M unit :=
  d ← get_db;
  put_db (mkDatabase (users d)
            (filter (λ r, ¬ (r.2 < current_date - 7)) (daily_senders d))
            (server_stats d)).

(** [reset_all_data]: the modelled tables among the truncated ones are
    [daily_senders] and [users]; then the UPDATE of the server row. *)
Definition reset_all_data : M unit :=
  d ← get_db;
  put_db (mkDatabase ∅ [] ((λ _, Stats.mk 0 None 0) <$> server_stats d)).

End Db.

(** ** Event handlers ([joy_streak_bot.py]) *)

Module Bot.
Import Db.

(** The streak values announced as milestones. *)
Definition milestones : list Z := [7; 30; 100; 365].

(** The first-of-the-day branch of the server streak update
    (lines 346-365), for the row [server_stats] read just before. *)
Definition update_server_streak (today : Z) (server_stats : Stats.t) : M unit :=
  if bool_decide (Stats.last_joy_sent server_stats ≠ Some today) then
    let yesterday_date := today - 1 in
    if bool_decide (Stats.last_joy_sent server_stats = Some yesterday_date) then
      update_server_stats
        [server_streak_ (Stats.server_streak server_stats + 1);
         stats_last_joy_sent_ (Some today)]
    else
      (if bool_decide (0 < Stats.server_streak server_stats)
       then send (SendServerStreakBroken (Stats.server_streak server_stats))
       else pass);;
      update_server_stats
        [server_streak_ 1; stats_last_joy_sent_ (Some today)]
  else pass.

(** [handle_joy_sticker], for the author [user_id] / [name] of the
    message. [today] is the reading of [get_today_date()]; the handler
    reads the clock three times, taken here to fall on the same day.
    [user] is the dict fetched on entry: later statements read it, not
    the store. The class-evolution sentence of the final response needs
    [data/classes.json] and is not part of the response modelled here. *)
Definition handle_joy_sticker (cfg : Config) (today user_id : Z)
    (name : string) : M unit :=
  user ← get_or_create_user user_id name;
  sent ← check_daily_sender user_id today;
  if (sent : bool) then
    let old_streak := User.streak user in
    update_user user_id [streak_ 0];;
    send (AddReaction BrokenHeart);;
    send (SendStreakBrokenTwice old_streak)
  else
    add_daily_sender user_id today;;
    let yesterday := today - 1 in
    match User.last_joy_sent user with
    | Some last_sent =>
        if bool_decide (last_sent ≠ yesterday) && bool_decide (last_sent ≠ today)
        then
          let old_streak := User.streak user in
          update_user user_id [streak_ 0];;
          add_xp user_id (- wrong_channel_xp_loss cfg);;
          send (SendStreakBrokenMissed old_streak (wrong_channel_xp_loss cfg))
        else pass
    | None => pass
    end;;
    update_user user_id [last_joy_sent_ (Some today)];;
    let new_streak := User.streak user + 1 in
    update_user user_id [streak_ new_streak];;
    let xp_reward := joy_base_xp cfg in
    let is_milestone := bool_decide (new_streak ∈ milestones) in
    let old_level := User.level user in
    result ← add_xp user_id xp_reward;
    result ← subscript result;
    let new_level := new_level result in
    server_stats ← get_server_stats;
    server_stats ← subscript server_stats;
    update_server_streak today server_stats;;
    send (AddReaction CheckMark);;
    send (SendResponse xp_reward
            (if bool_decide (old_level < new_level) then Some new_level else None)
            (if is_milestone then Some new_streak else None)).

(** [claim_coins], once the channel check has passed. *)
Definition claim_coins (cfg : Config) (today user_id : Z) (name : string)
  : M unit :=
  user ← get_or_create_user user_id name;
  if bool_decide (User.last_coin_claim user = Some today) then
    send SendAlreadyClaimed
  else
    let coins_earned := User.level user * daily_coins_per_level cfg in
    let new_coins := User.coins user + coins_earned in
    update_user user_id [coins_ new_coins; last_coin_claim_ (Some today)];;
    send (SendCoinsClaimed coins_earned new_coins).

(** *** Channels, class tiers and the profile numbers *)


(** The fields of the invocation context [ctx] that are read:
    [guild_owner_id] is [None] outside a guild. *)
Record Ctx : Type := mkCtx {
  cog_name : option string;
  channel_id : Z;
  author_id : Z;
  author_name : string;
  author_roles : list string;
  guild_owner_id : option Z
}.

(** Messages sent by the handlers below; a handler returns the one it
    sent. *)
Inductive Notice : Type :=
  | WrongChannel (channel_mention : string) (xp_lost : Z)
  | NoPermission
  | XpGranted (xp_added new_total : Z) (level_up : option (Z * Z))
  | HpUpdated (new_hp max_hp : Z)
  | NewDayForced (server_streak : Z)
  | UserReset
  | Failed (e : Exn).




(** A tier of a class of [data/classes.json]. *)
Record Tier : Type := mkTier {
  tier_name : string;
  tier_emoji : string;
  tier_level : Z
}.

(** The dict returned by [get_class_tier_name]. *)
Record TierInfo : Type := mkTierInfo {
  info_name : string;
  info_emoji : string;
  info_tier : Z
}.

(** The loop of [get_class_tier_name] over [enumerate(tiers)]. *)
Definition tier_index_loop (level : Z) (tiers : list Tier) : nat :=
  foldl (λ tier_index it,
           if bool_decide (tier_level it.2 ≤ level) then it.1 else tier_index)
        0%nat (zip (seq 0 (length tiers)) tiers).

(** [get_class_tier_name], for the table [CLASSES] of the tiers of each
    class; [None] stands for the IndexError of [tiers[tier_index]] on
    an empty list of tiers. *)
Definition get_class_tier_name (CLASSES : gmap string (list Tier))
    (user_class : option string) (level : Z) : option TierInfo :=
  if negb (Curve.truthy user_class)
     || bool_decide (user_class = Some "peasant")
     || bool_decide (level < 3)
  then Some (mkTierInfo "Peasant" "👤" 1)
  else
    match user_class ≫= (λ c, CLASSES !! c) with
    | None => Some (mkTierInfo "Unknown" "❓" 1)
    | Some tiers =>
        let tier_index := tier_index_loop level tiers in
        tier_info ← tiers !! tier_index;
        Some (mkTierInfo (tier_name tier_info) (tier_emoji tier_info)
                (Z.of_nat tier_index + 1))
    end.

(** The numbers behind the progress bar of [profile] (lines 426-430). *)
Definition xp_progress (user : User.t) : Z :=
  User.xp user - Curve.calculate_xp_for_level (User.level user).
Definition xp_needed (user : User.t) : Z :=
  Curve.calculate_xp_for_level (User.level user + 1)
  - Curve.calculate_xp_for_level (User.level user).

End Bot.

(** ** Admin commands ([admin.py]) *)

Module Admin.
Import Db Bot.

(** The entries of the configuration read by [is_admin]; a missing
    [admin_user_ids] is the empty list. *)
Record AdminConfig : Type := mkAdminConfig {
  admin_roles : list string;
  admin_user_ids : list Z
}.

(** [is_admin]. *)
Definition is_admin (config : AdminConfig) (ctx : Ctx) : bool :=
  if bool_decide (is_Some (guild_owner_id ctx))
     && existsb (λ role, bool_decide (role ∈ admin_roles config))
                (author_roles ctx)
  then true
  else if bool_decide (author_id ctx ∈ admin_user_ids config) then true
  else if bool_decide (guild_owner_id ctx = Some (author_id ctx)) then true
  else false.

(** [try: body except Exception as e: handler]; the queries committed
    before the exception stay. *)
Definition try_except {A} (body : M A) (handler : Exn → M A) : M A :=
  λ w, match body w with
       | (Ok a, w') => (Ok a, w')
       | (Raise e, w') => handler e w'
       end.

(** [give_xp], for the target [member]. *)
Definition give_xp (config : AdminConfig) (ctx : Ctx)
    (member_id : Z) (member_name : string) (amount : Z) : M Notice :=
  if negb (is_admin config ctx) then mret NoPermission
  else
    try_except
      (get_or_create_user member_id member_name;;
       result ← add_xp member_id amount;
       result ← subscript result;
       mret (XpGranted amount (res_xp result)
               (if leveled_up result
                then Some (old_level result, new_level result) else None)))
      (λ e, mret (Failed e)).

(** [set_hp]. *)
Definition set_hp (config : AdminConfig) (ctx : Ctx)
    (member_id : Z) (member_name : string) (hp : Z) : M Notice :=
  if negb (is_admin config ctx) then mret NoPermission
  else
    try_except
      (user ← get_or_create_user member_id member_name;
       let hp := 0 `max` (hp `min` User.max_hp user) in
       update_user member_id [hp_ hp];;
       mret (HpUpdated hp (User.max_hp user)))
      (λ e, mret (Failed e)).

(** [reset_user] (the command). *)
Definition reset_user (config : AdminConfig) (ctx : Ctx) (member_id : Z)
  : M Notice :=
  if negb (is_admin config ctx) then mret NoPermission
  else
    try_except (Db.reset_user member_id;; mret UserReset)
               (λ e, mret (Failed e)).

(** [force_new_day] (the command [newday]). *)
Definition force_new_day (config : AdminConfig) (ctx : Ctx) : M Notice :=
  if negb (is_admin config ctx) then mret NoPermission
  else
    try_except
      (d ← get_db;
       put_db (mkDatabase (users d) [] (server_stats d));;
       d ← get_db;
       put_db (mkDatabase ((λ u, assign u (last_coin_claim_ None)) <$> users d)
                 (daily_senders d) (server_stats d));;
       server_stats ← get_server_stats;
       server_stats ← subscript server_stats;
       mret (NewDayForced (Stats.server_streak server_stats)))
      (λ e, mret (Failed e)).

End Admin.

(** ** The store behind the operations ([database.py], lines 28-50 and 56-71)

    The operations above compute with Python integers and act on the
    store as the connection sees it: [Db.update_user] stores the values
    it is given, and nothing is ever undone. Two things of
    [execute_query] are left out there, and are modelled in [Pg].
    - In the store [level], [xp], [hp], [max_hp], [coins] and [streak]
      are INTEGER columns, which hold 32 bits: for a value outside that
      range the UPDATE fails.
    - The connection does not commit by itself ([autocommit = False]).
      A query run without [fetch] is committed at once (line 45); one
      run with [fetch=True] returns before the commit (line 44), so the
      INSERT of [create_user] stays pending until the next commit. A
      query that fails rolls the open transaction back (line 47),
      pending INSERT included, and the error is raised again.
    [Pg] has [update_user] with both and, built on it, the operations
    that store a sum with an amount chosen by their caller: [add_xp],
    the coin claim and the command [give_xp]. *)

(** The values of an INTEGER column. *)
Definition int4 (v : Z) : Prop := -2147483648 ≤ v ≤ 2147483647.

Global Instance int4_dec (v : Z) : Decision (int4 v).
Proof. unfold int4. apply _. Defined.

Module Pg.
Import Curve Db Bot Admin.

(** The connection: the store as its open transaction sees it (with
    the messages sent so far), and the store as last committed. *)
Record Session : Type := mkSession {
  now : World;
  committed : Database
}.

Definition T (A : Type) : Type := Session → result A * Session.

Global Instance T_ret : MRet T := λ A a s, (Ok a, s).
Global Instance T_bind : MBind T := λ A B f m s,
  match m s with
  | (Ok a, s') => f a s'
  | (Raise e, s') => (Raise e, s')
  end.

Definition exec {A} (m : T A) (s : Session) : Session := (m s).2.
Definition eval {A} (m : T A) (s : Session) : result A := (m s).1.

(** A session with nothing pending. *)
Definition settled (w : World) : Session := mkSession w (db w).

(** A step on the store as the open transaction sees it, without
    commit: a query run with [fetch=True], or no query at all. *)
Definition lift {A} (m : M A) : T A :=
  λ s, ((m (now s)).1, mkSession (m (now s)).2 (committed s)).

(** [self.conn.commit()]. *)
Definition commit : T unit := λ s, (Ok (), settled (now s)).

(** [self.conn.rollback()]: the store is the committed one again; the
    messages sent stay sent. *)
Definition rollback (s : Session) : Session :=
  settled (mkWorld (committed s) (outbox (now s))).

(** The [except] branch of [execute_query]: roll back, raise again. *)
Definition fail {A} (e : Exn) : T A := λ s, (Raise e, rollback s).

(** The value of a keyword argument fits its column. Only the INTEGER
    columns are checked: the operations below assign no text column,
    and a date always fits. *)
Definition fits (a : Assign) : bool :=
  match a with
  | level_ v | xp_ v | hp_ v | max_hp_ v | coins_ v | streak_ v =>
      bool_decide (int4 v)
  | user_class_ _ | last_joy_sent_ _ | last_coin_claim_ _ => true
  end.

(** [get_user]: a SELECT, run with [fetch=True]. *)
Definition get_user (discord_id : Z) : T (option User.t) :=
  lift (Db.get_user discord_id).

(** [create_user]: the INSERT is run with [fetch=True] and stays
    pending; a second row for the same id fails. *)
Definition create_user (discord_id : Z) (username : string) : T User.t :=
  λ s, match users (db (now s)) !! discord_id with
       | Some _ => fail UniqueViolation s
       | None => lift (Db.create_user discord_id username) s
       end.

(** [get_or_create_user]. *)
Definition get_or_create_user (discord_id : Z) (username : string)
  : T User.t :=
  user ← get_user discord_id;
  match user with
  | None => create_user discord_id username
  | Some u => mret u
  end.

(** [update_user]: the UPDATE is rejected as a whole, whether or not a
    row matches, when one of its values does not fit; otherwise it is
    run and committed. *)
Definition update_user (discord_id : Z) (kwargs : list Assign) : T unit :=
  if forallb fits kwargs then lift (Db.update_user discord_id kwargs);; commit
  else fail NumericValueOutOfRange.

(** [add_xp]. *)
Definition add_xp (discord_id xp_amount : Z) : T (option XpResult) :=
  user ← get_user discord_id;
  match user with
  | None => mret None
  | Some user =>
      let new_xp := 0 `max` (User.xp user + xp_amount) in
      let old_level := User.level user in
      let new_level := calculate_level_from_xp new_xp in
      let new_max_hp :=
        if bool_decide (new_level ≠ old_level)
        then calculate_max_hp new_level (User.user_class user)
        else User.max_hp user in
      update_user discord_id [xp_ new_xp; level_ new_level; max_hp_ new_max_hp];;
      mret (Some (mkXpResult old_level new_level new_xp
                    (bool_decide (old_level < new_level)) new_max_hp))
  end.

(** [claim_coins], once the channel check has passed. *)
Definition claim_coins (cfg : Config) (today user_id : Z) (name : string)
  : T unit :=
  user ← get_or_create_user user_id name;
  if bool_decide (User.last_coin_claim user = Some today) then
    lift (send SendAlreadyClaimed)
  else
    let coins_earned := User.level user * daily_coins_per_level cfg in
    let new_coins := User.coins user + coins_earned in
    update_user user_id [coins_ new_coins; last_coin_claim_ (Some today)];;
    lift (send (SendCoinsClaimed coins_earned new_coins)).

(** [try: body except Exception as e: handler]. *)
Definition try_except {A} (body : T A) (handler : Exn → T A) : T A :=
  λ s, match body s with
       | (Ok a, s') => (Ok a, s')
       | (Raise e, s') => handler e s'
       end.

(** [give_xp], for the target [member]. *)
Definition give_xp (config : AdminConfig) (ctx : Ctx)
    (member_id : Z) (member_name : string) (amount : Z) : T Notice :=
  if negb (is_admin config ctx) then mret NoPermission
  else
    try_except
      (get_or_create_user member_id member_name;;
       result ← add_xp member_id amount;
       result ← lift (subscript result);
       mret (XpGranted amount (res_xp result)
               (if leveled_up result
                then Some (old_level result, new_level result) else None)))
      (λ e, mret (Failed e)).

End Pg.

(** ** Well-formed stores *)

(** The primary key of [daily_senders]: no row occurs twice. *)
Definition ledger_ok (d : Database) : Prop := NoDup (daily_senders d).

(** Number of ledger rows for a user and a day. *)
Definition ledger_count (d : Database) (discord_id day : Z) : nat :=
  length (filter (λ r, r = (discord_id, day)) (daily_senders d)).

(** The invariant of the specification on a user row. *)
Definition hp_invariant (u : User.t) : Prop :=
  User.max_hp u = Curve.calculate_max_hp (User.level u) (User.user_class u)
  ∧ 0 ≤ User.hp u ≤ User.max_hp u.

(** ** Vocabulary of the statements *)

Module Outcome.
Import Curve Db Bot.

(** The world with the [users] table replaced. *)
Definition with_users (w : World) (us : gmap Z User.t) : World :=
  mkWorld (mkDatabase us (daily_senders (db w)) (server_stats (db w)))
          (outbox w).

(** The dict [user] of a handler after [get_or_create_user]: the stored
    row, or the defaults. *)
Definition fetched (id : Z) (name : string) (w : World) : User.t :=
  default (default_user id name) (users (db w) !! id).

(** The row left by [add_xp] on the stored row [u]. *)
Definition xp_row (u : User.t) (xp_amount : Z) : User.t :=
  let new_xp := 0 `max` (User.xp u + xp_amount) in
  let new_level := calculate_level_from_xp new_xp in
  let new_max_hp :=
    if bool_decide (new_level ≠ User.level u)
    then calculate_max_hp new_level (User.user_class u)
    else User.max_hp u in
  foldl assign u [xp_ new_xp; level_ new_level; max_hp_ new_max_hp].

(** The dict returned by [add_xp] for the stored row [u]. *)
Definition xp_result (u : User.t) (xp_amount : Z) : XpResult :=
  let new_xp := 0 `max` (User.xp u + xp_amount) in
  let new_level := calculate_level_from_xp new_xp in
  mkXpResult (User.level u) new_level new_xp
    (bool_decide (User.level u < new_level))
    (if bool_decide (new_level ≠ User.level u)
     then calculate_max_hp new_level (User.user_class u)
     else User.max_hp u).

(** The test of lines 309-311: a last day is recorded and it is neither
    yesterday nor today. *)
Definition missed_yesterday (today : Z) (user : User.t) : bool :=
  match User.last_joy_sent user with
  | Some last_sent =>
      bool_decide (last_sent ≠ today - 1) && bool_decide (last_sent ≠ today)
  | None => false
  end.

(** The stored row of the author after an accepted event. *)
Definition accepted_row (cfg : Config) (today : Z) (user : User.t) : User.t :=
  let row :=
    if missed_yesterday today user
    then xp_row (assign user (streak_ 0)) (- wrong_channel_xp_loss cfg)
    else user in
  let row := assign row (last_joy_sent_ (Some today)) in
  let row := assign row (streak_ (User.streak user + 1)) in
  xp_row row (joy_base_xp cfg).

(** The server row after an accepted event. *)
Definition accepted_stats (today : Z) (s : Stats.t) : Stats.t :=
  if bool_decide (Stats.last_joy_sent s ≠ Some today) then
    if bool_decide (Stats.last_joy_sent s = Some (today - 1))
    then Stats.mk (Stats.server_streak s + 1) (Some today)
                  (Stats.total_monsters_killed s)
    else Stats.mk 1 (Some today) (Stats.total_monsters_killed s)
  else s.

(** The messages of an accepted event, in the order they are sent. *)
Definition accepted_messages (cfg : Config) (today : Z) (user : User.t)
    (s : Stats.t) : list Effect :=
  (if missed_yesterday today user
   then [SendStreakBrokenMissed (User.streak user) (wrong_channel_xp_loss cfg)]
   else [])
  ++ (if bool_decide (Stats.last_joy_sent s ≠ Some today)
         && negb (bool_decide (Stats.last_joy_sent s = Some (today - 1)))
         && bool_decide (0 < Stats.server_streak s)
      then [SendServerStreakBroken (Stats.server_streak s)]
      else [])
  ++ [AddReaction CheckMark;
      SendResponse (joy_base_xp cfg)
        (let new_level := User.level (accepted_row cfg today user) in
         if bool_decide (User.level user < new_level) then Some new_level
         else None)
        (if bool_decide (User.streak user + 1 ∈ milestones)
         then Some (User.streak user + 1) else None)].

End Outcome.

(** ** Sample stores *)

(** Day 100 is "today" in the samples; the penalty is 5 and the reward
    10 experience points, the daily rate 1 coin per level. *)
Module Sample.

Definition cfg : Config := mkConfig 5 10 1.

(** A user with streak 12 whose last event was three days ago. *)
Definition ann_gap : User.t :=
  User.mk 7 "ann" 1 40 100 100 0 12 0 None (Some 97) None.

(** A user with streak 5 who already sent today. *)
Definition ann_today : User.t :=
  User.mk 7 "ann" 1 40 100 100 0 5 0 None (Some 100) None.


(** The server row: streak 4, advanced yesterday. *)
Definition stats_yesterday : Stats.t := Stats.mk 4 (Some 99) 0.

Definition w_gap : World :=
  mkWorld (mkDatabase {[ 7 := ann_gap ]} [(7, 97)] (Some stats_yesterday)) [].

Definition w_today : World :=
  mkWorld (mkDatabase {[ 7 := ann_today ]} [(7, 100)] (Some stats_yesterday)) [].


(** A store without users. *)
Definition w_empty : World :=
  mkWorld (mkDatabase ∅ [] (Some stats_yesterday)) [].

(** A user whose coins are at the upper bound of the INTEGER column
    (as after [!give_coins @ann 2147483647] on a new member). *)
Definition ann_rich : User.t :=
  User.mk 7 "ann" 1 40 100 100 2147483647 12 0 None (Some 97) None.

Definition w_rich : World :=
  mkWorld (mkDatabase {[ 7 := ann_rich ]} [(7, 97)] (Some stats_yesterday)) [].

End Sample.

(** * Properties *)

(** ** The experience curve *)

Module CurveFacts.
Import Curve.

Ltac split_tiers :=
  unfold xp_closed, xp_step, step_cost in *;
  repeat case_bool_decide; try lia.

Lemma range_snoc lo hi : lo ≤ hi → range lo (hi + 1) = range lo hi ++ [hi].
Proof.
  intros Hle. unfold range.
  replace (hi + 1 - lo) with ((hi - lo) + 1) by lia.
  rewrite seqZ_app by lia.
  rewrite (seqZ_cons _ 1), (seqZ_nil _ (Z.pred 1)) by lia.
  by replace (lo + (hi - lo)) with hi by lia.
Qed.

(** Below level 2 the loop body never runs. *)
Lemma calculate_xp_for_level_low L : L ≤ 1 → calculate_xp_for_level L = 0.
Proof.
  intros HL. unfold calculate_xp_for_level, range.
  case_bool_decide; [done|]. by rewrite seqZ_nil by lia.
Qed.

(** One more level adds one more iteration of the loop body. *)
Lemma calculate_xp_for_level_succ L :
  1 ≤ L →
  calculate_xp_for_level (L + 1)
  = xp_step (calculate_xp_for_level L) (L + 1).
Proof.
  intros HL. unfold calculate_xp_for_level at 1.
  rewrite bool_decide_eq_false_2 by lia.
  rewrite range_snoc, foldl_app by lia. simpl. f_equal.
  unfold calculate_xp_for_level. case_bool_decide as H1; [|done].
  subst L. reflexivity.
Qed.

Lemma calculate_xp_for_level_closed L :
  1 ≤ L → calculate_xp_for_level L = xp_closed L.
Proof.
  intros HL. replace L with (1 + Z.of_nat (Z.to_nat (L - 1))) by lia.
  induction (Z.to_nat (L - 1)) as [|n IH].
  - reflexivity.
  - replace (1 + Z.of_nat (S n)) with ((1 + Z.of_nat n) + 1) by lia.
    rewrite calculate_xp_for_level_succ, IH by lia. split_tiers.
Qed.

Lemma sum_steps_snoc n from :
  sum_steps (S n) from = sum_steps n from + step_cost (from + Z.of_nat n).
Proof.
  revert from. induction n as [|n IH]; intros from.
  - simpl. replace (from + Z.of_nat 0) with from by lia. lia.
  - change (sum_steps (S (S n)) from)
      with (step_cost from + sum_steps (S n) (from + 1)).
    rewrite IH. simpl sum_steps.
    replace (from + 1 + Z.of_nat n) with (from + Z.of_nat (S n)) by lia. lia.
Qed.

Lemma ExperienceForLevel_closed L : 1 ≤ L → ExperienceForLevel L = xp_closed L.
Proof.
  intros HL. unfold ExperienceForLevel.
  replace L with (1 + Z.of_nat (Z.to_nat (L - 1))) at 2 by lia.
  induction (Z.to_nat (L - 1)) as [|n IH].
  - reflexivity.
  - rewrite sum_steps_snoc, IH. split_tiers.
Qed.

Lemma xp_closed_step L : 1 ≤ L → xp_closed L + 60 ≤ xp_closed (L + 1).
Proof. intros. split_tiers. Qed.

Lemma xp_closed_lower L : 1 ≤ L → 60 * (L - 1) ≤ xp_closed L.
Proof. intros. split_tiers. Qed.

Lemma xp_closed_mono a b : 1 ≤ a → a < b → xp_closed a < xp_closed b.
Proof. intros. split_tiers. Qed.

(** The loop returns with any budget above the number of 60-point
    steps that still fit under [xp]. *)
Lemma level_loop_returns fuel xp level :
  1 ≤ level →
  (0 < fuel)%nat →
  xp - calculate_xp_for_level level < 60 * Z.of_nat fuel →
  ∃ L, level_loop fuel xp level = Some L
       ∧ level ≤ L
       ∧ xp < calculate_xp_for_level (L + 1)
       ∧ (level < L → calculate_xp_for_level L ≤ xp).
Proof.
  revert level. induction fuel as [|fuel IH]; intros level Hlevel Hpos Hfuel.
  { lia. }
  simpl. pose proof (calculate_xp_for_level_succ level Hlevel) as Hsucc.
  pose proof (xp_closed_step level Hlevel) as Hstep.
  rewrite <- !calculate_xp_for_level_closed in Hstep by lia.
  case_bool_decide as Hcond.
  - destruct (IH (level + 1)) as (L & HL & Hle & Hlt & Hge); [lia..|].
    exists L. split; [done|]. split; [lia|]. split; [done|]. intros _.
    destruct (decide (L = level + 1)) as [->|]; [lia|]. apply Hge. lia.
  - exists level. split; [done|]. split; [lia|]. split; lia.
Qed.

(** A run that returned keeps its result under any larger budget. *)
Lemma level_loop_mono fuel fuel' xp level L :
  level_loop fuel xp level = Some L →
  (fuel ≤ fuel')%nat →
  level_loop fuel' xp level = Some L.
Proof.
  revert fuel' level. induction fuel as [|fuel IH]; intros fuel' level Hrun Hle.
  - discriminate.
  - destruct fuel' as [|fuel']; [lia|]. simpl in *.
    case_bool_decide; [|done]. apply IH; [done|lia].
Qed.

Lemma level_fuel_enough xp :
  xp - calculate_xp_for_level 1 < 60 * Z.of_nat (level_fuel xp).
Proof.
  change (calculate_xp_for_level 1) with 0. unfold level_fuel.
  destruct (decide (xp < 0)) as [Hneg|Hpos]; [lia|].
  rewrite Nat2Z.inj_succ, Z2Nat.id by (apply Z.div_pos; lia).
  pose proof (Z.mod_pos_bound xp 60 ltac:(lia)).
  pose proof (Z.div_mod xp 60 ltac:(lia)). lia.
Qed.

(** The budget of [calculate_level_from_xp] is never exhausted, and its
    result is the largest level whose total fits under [xp]. *)
Lemma calculate_level_from_xp_spec xp :
  level_loop (level_fuel xp) xp 1 = Some (calculate_level_from_xp xp)
  ∧ 1 ≤ calculate_level_from_xp xp
  ∧ xp < calculate_xp_for_level (calculate_level_from_xp xp + 1)
  ∧ (1 < calculate_level_from_xp xp →
     calculate_xp_for_level (calculate_level_from_xp xp) ≤ xp).
Proof.
  destruct (level_loop_returns (level_fuel xp) xp 1) as (L & HL & H1 & H2 & H3);
    [lia | unfold level_fuel; lia | apply level_fuel_enough |].
  unfold calculate_level_from_xp. rewrite HL. simpl. auto.
Qed.

(** The level is determined by the two bounds of the specification. *)
Lemma calculate_level_from_xp_unique xp L :
  1 ≤ L →
  (1 < L → calculate_xp_for_level L ≤ xp) →
  xp < calculate_xp_for_level (L + 1) →
  calculate_level_from_xp xp = L.
Proof.
  intros HL Hlo Hhi.
  destruct (calculate_level_from_xp_spec xp) as (_ & H1 & H2 & H3).
  set (R := calculate_level_from_xp xp) in *.
  rewrite !calculate_xp_for_level_closed in * by lia.
  destruct (Z.lt_trichotomy R L) as [Hlt|[Heq|Hgt]]; [|done|].
  - pose proof (xp_closed_mono R L H1 Hlt).
    destruct (decide (R + 1 = L)) as [<-|]; [lia|].
    pose proof (xp_closed_mono (R + 1) L ltac:(lia) ltac:(lia)). lia.
  - pose proof (xp_closed_mono L R HL Hgt).
    destruct (decide (L + 1 = R)) as [<-|]; [lia|].
    pose proof (xp_closed_mono (L + 1) R ltac:(lia) ltac:(lia)). lia.
Qed.

(** C6. [calculate_xp_for_level] returns 0 for level 1 and, for every
    target level [L] from 2 on, the sum of the costs of the steps 2 up
    to [L], a step costing 60 up to 16, 90 from 17 to 36 and 120
    beyond 36; in closed form, the running total by tier. *)
Theorem xp_for_level_is_sum_of_step_costs :
  calculate_xp_for_level 1 = 0
  ∧ ∀ L, 2 ≤ L →
      calculate_xp_for_level L = ExperienceForLevel L
      ∧ calculate_xp_for_level L = xp_closed L.
Proof.
  split; [reflexivity|]. intros L HL.
  by rewrite calculate_xp_for_level_closed, ExperienceForLevel_closed by lia.
Qed.

Lemma xp_for_level_is_sum_of_step_costs_witness :
  2 ≤ 20 ∧ calculate_xp_for_level 20 = ExperienceForLevel 20
  ∧ calculate_xp_for_level 20 = 1260.
Proof.
  split; [lia|].
  destruct (proj2 xp_for_level_is_sum_of_step_costs 20 ltac:(lia))
    as (Hsum & Hclosed).
  split; [exact Hsum | exact Hclosed].
Defined.

(** C7. From level 1 on the curve is strictly increasing, the level of
    the total of [L] is [L], and one point below the total of [L] the
    level is [L - 1]. *)
Theorem curve_monotone_and_round_trip (L : Z) :
  1 ≤ L →
  calculate_xp_for_level L < calculate_xp_for_level (L + 1)
  ∧ calculate_level_from_xp (calculate_xp_for_level L) = L
  ∧ (1 < L → calculate_level_from_xp (calculate_xp_for_level L - 1) = L - 1).
Proof.
  intros HL.
  pose proof (xp_closed_step L HL) as Hstep.
  rewrite <- !calculate_xp_for_level_closed in Hstep by lia.
  split; [lia|]. split.
  - apply calculate_level_from_xp_unique; [done|lia|lia].
  - intros H1L.
    pose proof (xp_closed_step (L - 1) ltac:(lia)) as Hprev.
    replace (L - 1 + 1) with L in Hprev by lia.
    rewrite <- !calculate_xp_for_level_closed in Hprev by lia.
    apply calculate_level_from_xp_unique; [lia|lia|].
    replace (L - 1 + 1) with L by lia. lia.
Qed.

Lemma curve_monotone_and_round_trip_witness :
  1 ≤ 17
  ∧ calculate_xp_for_level 17 < calculate_xp_for_level (17 + 1)
  ∧ calculate_level_from_xp (calculate_xp_for_level 17) = 17
  ∧ (1 < 17 → calculate_level_from_xp (calculate_xp_for_level 17 - 1) = 17 - 1).
Proof.
  split; [lia|]. apply (curve_monotone_and_round_trip 17). lia.
Defined.

(** C10. For every integer [xp], negative ones included, the loop of
    [calculate_level_from_xp] returns within a finite number of
    iterations and the level returned is at least 1. The reason: from
    level 1 on each further level costs at least 60 more, so the totals
    exceed any bound and the loop condition eventually fails. *)
Theorem level_from_xp_terminates :
  (∀ xp, ∃ fuel L,
      level_loop fuel xp 1 = Some L
      ∧ (∀ fuel', (fuel ≤ fuel')%nat → level_loop fuel' xp 1 = Some L)
      ∧ calculate_level_from_xp xp = L
      ∧ 1 ≤ L)
  ∧ (∀ level, 1 ≤ level →
      calculate_xp_for_level level < calculate_xp_for_level (level + 1))
  ∧ (∀ bound, ∃ level, 1 ≤ level ∧ bound < calculate_xp_for_level (level + 1)).
Proof.
  split; [|split].
  - intros xp. exists (level_fuel xp), (calculate_level_from_xp xp).
    destruct (calculate_level_from_xp_spec xp) as (Hrun & H1 & _).
    split; [done|]. split; [|done].
    intros fuel' Hle. by apply (level_loop_mono (level_fuel xp)).
  - intros level Hlevel. pose proof (xp_closed_step level Hlevel) as Hstep.
    rewrite <- !calculate_xp_for_level_closed in Hstep by lia. lia.
  - intros bound. exists (1 `max` bound). split; [lia|].
    pose proof (xp_closed_lower (1 `max` bound + 1) ltac:(lia)) as Hlow.
    rewrite <- calculate_xp_for_level_closed in Hlow by lia. lia.
Qed.

Lemma level_from_xp_terminates_witness :
  (∃ fuel L, level_loop fuel (-40) 1 = Some L ∧ 1 ≤ L)
  ∧ 1 ≤ 30
  ∧ calculate_xp_for_level 30 < calculate_xp_for_level (30 + 1).
Proof.
  split.
  - destruct (proj1 level_from_xp_terminates (-40))
      as (fuel & L & Hrun & _ & _ & HL).
    exists fuel, L. split; [exact Hrun | exact HL].
  - split; [lia|].
    apply (proj1 (proj2 level_from_xp_terminates) 30). lia.
Defined.

(** C8. [calculate_max_hp] is [level * 10] below level 3, without a
    class, and for the class [peasant]; for a class of the table
    [class_hp] it is [base + (level - 3) * per_level]; for a class
    that is not in the table it is [level * 10]. At level 5 the pair
    (80, 8) gives 96. *)
Theorem max_hp_formula (level : Z) (user_class : option string) :
  ((level < 3 ∨ user_class = None ∨ user_class = Some "peasant") →
     calculate_max_hp level user_class = level * 10)
  ∧ (∀ c base per_level,
       3 ≤ level → user_class = Some c → c ≠ "peasant" →
       class_hp !! c = Some (base, per_level) →
       calculate_max_hp level user_class = base + (level - 3) * per_level)
  ∧ (∀ c, user_class = Some c → class_hp !! c = None →
       calculate_max_hp level user_class = level * 10)
  ∧ class_hp !! "joy_keeper" = Some (80, 8)
  ∧ calculate_max_hp 5 (Some "joy_keeper") = 96.
Proof.
  unfold calculate_max_hp. repeat split.
  - intros [Hlt | [ -> | -> ] ].
    + rewrite (bool_decide_eq_true_2 (level < 3)) by done.
      by rewrite !orb_true_r.
    + done.
    + done.
  - intros c base per_level Hlevel -> Hpeasant Hlookup.
    assert (c ≠ "") as Hne by (intros ->; vm_compute in Hlookup; discriminate).
    simpl. rewrite Hlookup.
    rewrite (bool_decide_eq_false_2 (c = "")) by done.
    rewrite (bool_decide_eq_false_2 (Some c = Some "peasant")) by congruence.
    by rewrite (bool_decide_eq_false_2 (level < 3)) by lia.
  - intros c -> Hlookup. simpl. rewrite Hlookup. by destruct (_ || _).
Qed.

Lemma max_hp_formula_witness :
  calculate_max_hp 2 (Some "pit_wizard") = 2 * 10
  ∧ calculate_max_hp 40 (Some "chud_warrior") = 120 + (40 - 3) * 12
  ∧ calculate_max_hp 9 (Some "bard") = 9 * 10.
Proof.
  split; [|split].
  - apply (proj1 (max_hp_formula 2 (Some "pit_wizard"))). left. lia.
  - apply (proj1 (proj2 (max_hp_formula 40 (Some "chud_warrior")))
             "chud_warrior" 120 12); [lia|reflexivity|discriminate|reflexivity].
  - apply (proj1 (proj2 (proj2 (max_hp_formula 9 (Some "bard")))) "bard");
      reflexivity.
Defined.

End CurveFacts.

(** ** The streak ledger *)

Module LedgerFacts.
Import Curve Db Bot Outcome.

(** *** Runs of the repository operations *)

Lemma bind_run {A B} (m : M A) (f : A → M B) (w : World) :
  (m ≫= f) w
  = match m w with
    | (Ok a, w') => f a w'
    | (Raise e, w') => (Raise e, w')
    end.
Proof. reflexivity. Qed.

Lemma run_ret {A} (a : A) (w : World) : @mret M _ A a w = (Ok a, w).
Proof. reflexivity. Qed.

Lemma run_pass w : pass w = (Ok (), w).
Proof. reflexivity. Qed.

Lemma run_send e w : send e w = (Ok (), mkWorld (db w) (outbox w ++ [e])).
Proof. reflexivity. Qed.

Lemma run_check_daily_sender id day w :
  check_daily_sender id day w
  = (Ok (bool_decide ((id, day) ∈ daily_senders (db w))), w).
Proof. reflexivity. Qed.

Lemma run_add_daily_sender id day w :
  (id, day) ∉ daily_senders (db w) →
  add_daily_sender id day w
  = (Ok (), mkWorld (mkDatabase (users (db w))
                       (daily_senders (db w) ++ [(id, day)])
                       (server_stats (db w))) (outbox w)).
Proof.
  intros Hnotin. unfold add_daily_sender. rewrite bind_run. simpl.
  by rewrite bool_decide_eq_false_2.
Qed.

Lemma run_get_server_stats w :
  get_server_stats w = (Ok (server_stats (db w)), w).
Proof. reflexivity. Qed.

Lemma run_update_server_stats kwargs w :
  update_server_stats kwargs w
  = (Ok (), mkWorld (mkDatabase (users (db w)) (daily_senders (db w))
                       ((λ s, foldl stats_assign s kwargs) <$> server_stats (db w)))
                    (outbox w)).
Proof. reflexivity. Qed.

Lemma run_get_user id w : get_user id w = (Ok (users (db w) !! id), w).
Proof. reflexivity. Qed.

Lemma run_update_user id kwargs w :
  update_user id kwargs w
  = (Ok (), with_users w (alter (λ u, foldl assign u kwargs) id (users (db w)))).
Proof. reflexivity. Qed.

Lemma run_get_or_create_user id name w :
  get_or_create_user id name w
  = match users (db w) !! id with
    | Some u => (Ok u, w)
    | None => (Ok (default_user id name),
               with_users w (<[id := default_user id name]> (users (db w))))
    end.
Proof.
  unfold get_or_create_user, create_user, mbind, M_bind. simpl.
  destruct (users (db w) !! id) eqn:Hu; simpl; [by destruct w|].
  by rewrite Hu.
Qed.

Lemma run_add_xp id amount w :
  add_xp id amount w
  = match users (db w) !! id with
    | None => (Ok None, w)
    | Some user =>
        let new_xp := 0 `max` (User.xp user + amount) in
        let new_level := calculate_level_from_xp new_xp in
        let new_max_hp :=
          if bool_decide (new_level ≠ User.level user)
          then calculate_max_hp new_level (User.user_class user)
          else User.max_hp user in
        (Ok (Some (mkXpResult (User.level user) new_level new_xp
                     (bool_decide (User.level user < new_level)) new_max_hp)),
         with_users w
           (alter (λ u, foldl assign u
                          [xp_ new_xp; level_ new_level; max_hp_ new_max_hp])
                  id (users (db w))))
    end.
Proof.
  unfold add_xp, mbind, M_bind. simpl.
  destruct (users (db w) !! id); [reflexivity | by destruct w].
Qed.

Lemma proj_db d o : db (mkWorld d o) = d.
Proof. reflexivity. Qed.
Lemma proj_outbox d o : outbox (mkWorld d o) = o.
Proof. reflexivity. Qed.
Lemma proj_users us l s : users (mkDatabase us l s) = us.
Proof. reflexivity. Qed.
Lemma proj_daily_senders us l s : daily_senders (mkDatabase us l s) = l.
Proof. reflexivity. Qed.
Lemma proj_server_stats us l s : server_stats (mkDatabase us l s) = s.
Proof. reflexivity. Qed.

Lemma run_subscript {A} (a : A) (w : World) : subscript (Some a) w = (Ok a, w).
Proof. reflexivity. Qed.

Lemma run_update_server_stats_present kwargs w s :
  server_stats (db w) = Some s →
  update_server_stats kwargs w
  = (Ok (), mkWorld (mkDatabase (users (db w)) (daily_senders (db w))
                       (Some (foldl stats_assign s kwargs)))
                    (outbox w)).
Proof. intros Hs. by rewrite run_update_server_stats, Hs. Qed.

Lemma alter_present (m : gmap Z User.t) (f : User.t → User.t) id u :
  m !! id = Some u → alter f id m = <[id := f u]> m.
Proof.
  intros Hu. apply map_eq. intros j.
  destruct (decide (id = j)) as [<-|Hne].
  - by rewrite lookup_alter_eq, lookup_insert_eq, Hu.
  - by rewrite lookup_alter_ne, lookup_insert_ne.
Qed.

Lemma run_update_user_present id kwargs w u :
  users (db w) !! id = Some u →
  update_user id kwargs w
  = (Ok (), with_users w (<[id := foldl assign u kwargs]> (users (db w)))).
Proof. intros Hu. by rewrite run_update_user, (alter_present _ _ _ u). Qed.

Lemma run_add_xp_present id amount w u :
  users (db w) !! id = Some u →
  add_xp id amount w
  = (Ok (Some (xp_result u amount)),
     with_users w (<[id := xp_row u amount]> (users (db w)))).
Proof.
  intros Hu. rewrite run_add_xp, Hu. cbn zeta.
  by rewrite (alter_present _ _ _ u).
Qed.

Lemma run_add_xp_absent id amount w :
  users (db w) !! id = None → add_xp id amount w = (Ok None, w).
Proof. intros Hu. by rewrite run_add_xp, Hu. Qed.

(** The row of the user is the one just written, or the one found. *)
Ltac present :=
  unfold with_users;
  rewrite ?proj_db, ?proj_users, ?proj_server_stats;
  first [ eassumption | apply lookup_insert_eq | reflexivity ].

(** One step of a run: the next bind or repository call. *)
Ltac mstep :=
  first [ progress unfold with_users
        | progress rewrite ?proj_db, ?proj_users, ?proj_daily_senders,
                           ?proj_server_stats, ?proj_outbox
        | progress rewrite bind_run
        | progress rewrite run_send
        | erewrite run_update_user_present by present
        | erewrite run_add_xp_present by present
        | erewrite run_update_server_stats_present by present
        | progress rewrite run_check_daily_sender
        | progress rewrite run_get_server_stats
        | progress rewrite run_get_user
        | progress rewrite run_pass
        | progress rewrite run_ret
        | progress rewrite run_subscript ];
  cbv beta iota.
Ltac mrun := repeat mstep.

Lemma filter_absent (l : list (Z * Z)) (r : Z * Z) :
  r ∉ l → filter (λ x, x = r) l = [].
Proof.
  induction l as [|x l IH]; intros Hnotin; [done|].
  apply not_elem_of_cons in Hnotin as [Hne Hnotin].
  rewrite filter_cons, decide_False by done. by apply IH.
Qed.

Lemma ledger_count_one (l : list (Z * Z)) (r : Z * Z) :
  NoDup l → r ∈ l → length (filter (λ x, x = r) l) = 1%nat.
Proof.
  induction 1 as [|x l Hx Hnd IH]; intros Hin.
  - by apply elem_of_nil in Hin.
  - rewrite filter_cons. apply elem_of_cons in Hin as [->|Hin].
    + rewrite decide_True by done. simpl. by rewrite filter_absent.
    + rewrite decide_False by (intros ->; done). by apply IH.
Qed.

(** C4. When the ledger already holds a row for the user and today, a
    further event resets the stored streak to 0, leaves the experience
    (and the level) of the user as they were, and leaves the ledger as
    it was, with exactly one row for the user and today; the server
    row is not touched and the break is announced with the old
    streak. *)
Theorem double_submission_resets_streak
    (cfg : Config) (today id : Z) (name : string) (w : World) :
  ledger_ok (db w) →
  (id, today) ∈ daily_senders (db w) →
  let w' := exec (handle_joy_sticker cfg today id name) w in
  let user := fetched id name w in
  eval (handle_joy_sticker cfg today id name) w = Ok ()
  ∧ users (db w') !! id = Some (assign user (streak_ 0))
  ∧ User.streak (assign user (streak_ 0)) = 0
  ∧ User.xp (assign user (streak_ 0)) = User.xp user
  ∧ User.level (assign user (streak_ 0)) = User.level user
  ∧ daily_senders (db w') = daily_senders (db w)
  ∧ ledger_count (db w') id today = 1%nat
  ∧ server_stats (db w') = server_stats (db w)
  ∧ outbox w' = outbox w ++ [AddReaction BrokenHeart;
                             SendStreakBrokenTwice (User.streak user)].
Proof.
  intros Hok Hin w' user. subst w' user.
  unfold exec, eval, handle_joy_sticker, fetched.
  rewrite !bind_run, run_get_or_create_user.
  destruct (users (db w) !! id) as [u|] eqn:Hu.
  all: mrun; cbn [db daily_senders with_users].
  all: rewrite bool_decide_eq_true_2 by done.
  all: mrun; unfold ledger_count; simpl.
  all: rewrite ?lookup_insert_eq.
  all: rewrite ledger_count_one by done.
  all: by rewrite <- ?app_assoc.
Qed.

(** An accepted event (no ledger row yet for the user and today), on a
    store that holds the server row: the handler returns normally, and
    the new store and the messages are the ones named in [Outcome]. *)
Lemma run_accepted (cfg : Config) (today id : Z) (name : string)
    (w : World) (s : Stats.t) :
  (id, today) ∉ daily_senders (db w) →
  server_stats (db w) = Some s →
  ∃ us,
    handle_joy_sticker cfg today id name w
    = (Ok (), mkWorld (mkDatabase us (daily_senders (db w) ++ [(id, today)])
                         (Some (accepted_stats today s)))
                      (outbox w ++ accepted_messages cfg today
                                     (fetched id name w) s))
    ∧ us !! id = Some (accepted_row cfg today (fetched id name w))
    ∧ (∀ j, j ≠ id → us !! j = users (db w) !! j).
Proof.
  intros Hnotin Hstats.
  unfold handle_joy_sticker, fetched.
  unfold accepted_messages, accepted_row, accepted_stats, missed_yesterday.
  unfold update_server_streak.
  destruct (users (db w) !! id) as [u|] eqn:Hu.
  all: cbn [default from_option default_user User.last_joy_sent Datatypes.id].
  1: destruct (User.last_joy_sent u) as [last_sent|] eqn:Hlast;
       [destruct (bool_decide (last_sent ≠ today - 1) &&
                  bool_decide (last_sent ≠ today)) eqn:Hgap|].
  all: destruct (bool_decide (Stats.last_joy_sent s ≠ Some today)) eqn:Ht.
  all: destruct (bool_decide (Stats.last_joy_sent s = Some (today - 1))) eqn:Hy.
  all: destruct (bool_decide (0 < Stats.server_streak s)) eqn:Hpos.
  all: cbn [andb negb].
  all: eexists; split;
    [ rewrite bind_run, run_get_or_create_user, Hu; mrun;
      rewrite bool_decide_eq_false_2 by done;
      mrun; rewrite run_add_daily_sender by done;
      repeat first [ mstep
                   | progress rewrite Hlast
                   | progress rewrite Hgap | progress rewrite Hstats
                   | progress rewrite Ht | progress rewrite Hy
                   | progress rewrite Hpos ];
      rewrite <- ?app_assoc; reflexivity
    | split;
      [ rewrite ?lookup_insert_eq; reflexivity
      | intros j Hj; rewrite ?lookup_insert_ne by done; reflexivity ] ].
Qed.

(** The stored streak after an accepted event is the streak read on
    entry plus one, also when the gap branch has just stored 0. *)
Lemma accepted_row_streak cfg today user :
  User.streak (accepted_row cfg today user) = User.streak user + 1.
Proof. reflexivity. Qed.


Lemma accepted_row_xp cfg today user :
  User.xp (accepted_row cfg today user)
  = 0 `max` ((if missed_yesterday today user
              then 0 `max` (User.xp user - wrong_channel_xp_loss cfg)
              else User.xp user) + joy_base_xp cfg).
Proof.
  unfold accepted_row. destruct (missed_yesterday today user); reflexivity.
Qed.

(** C1. At the gap-break example of the specification (last event three
    days ago, streak 12) the handler announces the break with the old
    streak 12 and the penalty, subtracts the penalty and grants the
    reward (40 - 5 + 10), sets the last day to today, and stores the
    streak 13: the value read before the reset plus one, not 1. *)
Theorem gap_break_stores_stale_streak :
  let w' := exec (handle_joy_sticker Sample.cfg 100 7 "ann") Sample.w_gap in
  missed_yesterday 100 Sample.ann_gap = true
  ∧ eval (handle_joy_sticker Sample.cfg 100 7 "ann") Sample.w_gap = Ok ()
  ∧ users (db w') !! 7
    = Some (User.mk 7 "ann" 1 45 100 100 0 13 0 None (Some 100) None)
  ∧ outbox w' = [SendStreakBrokenMissed 12 5; AddReaction CheckMark;
                 SendResponse 10 None None].
Proof. vm_compute. repeat split. Qed.

Lemma double_submission_resets_streak_witness :
  ledger_ok (db Sample.w_today)
  ∧ (7, 100) ∈ daily_senders (db Sample.w_today)
  ∧ users (db (exec (handle_joy_sticker Sample.cfg 100 7 "ann") Sample.w_today))
      !! 7
    = Some (assign (fetched 7 "ann" Sample.w_today) (streak_ 0))
  ∧ ledger_count
      (db (exec (handle_joy_sticker Sample.cfg 100 7 "ann") Sample.w_today))
      7 100 = 1%nat.
Proof.
  assert (ledger_ok (db Sample.w_today)) as Hok
    by (apply NoDup_singleton).
  assert ((7, 100) ∈ daily_senders (db Sample.w_today)) as Hin
    by (apply list_elem_of_singleton; reflexivity).
  split; [exact Hok|]. split; [exact Hin|].
  destruct (double_submission_resets_streak Sample.cfg 100 7 "ann"
              Sample.w_today Hok Hin)
    as (_ & Hrow & _ & _ & _ & _ & Hcount & _).
  split; [exact Hrow | exact Hcount].
Defined.








(** *** Absent users *)

Lemma with_users_same w : with_users w (users (db w)) = w.
Proof. by destruct w as [[us l s] o]. Qed.

(** C9, as the code has it. For a user id without a row: the sticker
    handler and the coin claim first create the row with the defaults
    (level 1, xp 0, hp 100, max_hp 100, coins 0) and then apply their
    mutation to it; [add_xp], [damage_user] and [heal_user] return
    [None] and leave the store as it is, and so do [set_user_class] and
    [reset_user]. *)
Theorem absent_user_behaviour (id : Z) (w : World) :
  users (db w) !! id = None →
  (∀ name,
     get_or_create_user id name w
     = (Ok (default_user id name),
        with_users w (<[id := default_user id name]> (users (db w))))
     ∧ default_user id name
       = User.mk id name 1 0 100 100 0 0 0 None None None)
  ∧ (∀ cfg today name,
       (id, today) ∈ daily_senders (db w) →
       users (db (exec (handle_joy_sticker cfg today id name) w)) !! id
       = Some (assign (default_user id name) (streak_ 0)))
  ∧ (∀ cfg today name s,
       (id, today) ∉ daily_senders (db w) →
       server_stats (db w) = Some s →
       users (db (exec (handle_joy_sticker cfg today id name) w)) !! id
       = Some (accepted_row cfg today (default_user id name)))
  ∧ (∀ cfg today name,
       users (db (exec (claim_coins cfg today id name) w)) !! id
       = Some (foldl assign (default_user id name)
                 [coins_ (0 + 1 * daily_coins_per_level cfg);
                  last_coin_claim_ (Some today)]))
  ∧ (∀ xp_amount, add_xp id xp_amount w = (Ok None, w))
  ∧ (∀ damage, damage_user id damage w = (Ok None, w))
  ∧ (∀ amount, heal_user id amount w = (Ok None, w))
  ∧ (∀ class_name, set_user_class id class_name w = (Ok (), w))
  ∧ reset_user id w = (Ok (), w).
Proof.
  intros Hu.
  assert (∀ name, fetched id name w = default_user id name) as Hf
    by (intros name; unfold fetched; by rewrite Hu).
  repeat apply conj.
  - intros name. split; [|reflexivity].
    by rewrite run_get_or_create_user, Hu.
  - intros cfg today name Hin.
    unfold exec, handle_joy_sticker.
    rewrite bind_run, run_get_or_create_user, Hu. mrun.
    rewrite bool_decide_eq_true_2 by done. mrun.
    cbn [snd]. mrun. by rewrite lookup_insert_eq.
  - intros cfg today name s Hnotin Hstats.
    destruct (run_accepted cfg today id name w s Hnotin Hstats)
      as (us & Hrun & Hrow & _).
    unfold exec. rewrite Hrun. cbn [snd db users]. by rewrite Hrow, Hf.
  - intros cfg today name. unfold exec, claim_coins.
    rewrite bind_run, run_get_or_create_user, Hu. mrun.
    cbn [User.last_coin_claim default_user]. cbv beta iota.
    rewrite bool_decide_eq_false_2 by done. mrun.
    cbn [snd]. mrun. by rewrite lookup_insert_eq.
  - intros xp_amount. by apply run_add_xp_absent.
  - intros damage. unfold damage_user. by rewrite bind_run, run_get_user, Hu.
  - intros amount. unfold heal_user. by rewrite bind_run, run_get_user, Hu.
  - intros class_name. unfold set_user_class.
    by rewrite bind_run, run_get_user, Hu.
  - unfold reset_user. rewrite bind_run. cbn.
    rewrite delete_id by done. by destruct w as [[us l s] o].
Qed.

Lemma absent_user_behaviour_witness :
  users (db Sample.w_empty) !! 7 = None
  ∧ add_xp 7 50 Sample.w_empty = (Ok None, Sample.w_empty)
  ∧ damage_user 7 30 Sample.w_empty = (Ok None, Sample.w_empty)
  ∧ users (db (exec (claim_coins Sample.cfg 100 7 "ann") Sample.w_empty)) !! 7
    = Some (User.mk 7 "ann" 1 0 100 100 1 0 0 None None (Some 100)).
Proof.
  assert (users (db Sample.w_empty) !! 7 = None) as Hu by reflexivity.
  destruct (absent_user_behaviour 7 Sample.w_empty Hu)
    as (_ & _ & _ & Hclaim & Hxp & Hdamage & _).
  split; [exact Hu|]. split; [exact (Hxp 50)|]. split; [exact (Hdamage 30)|].
  exact (Hclaim Sample.cfg 100 "ann").
Defined.

(** C9 as stated fails: an experience grant for a user id without a
    row creates no row. *)
Lemma add_xp_does_not_create_user :
  ¬ (∀ (id xp_amount : Z) (w : World),
       users (db w) !! id = None →
       is_Some (users (db (exec (add_xp id xp_amount) w)) !! id)).
Proof.
  intros Hclaim.
  destruct (Hclaim 7 50 Sample.w_empty eq_refl) as [u Hrow].
  vm_compute in Hrow. discriminate Hrow.
Qed.

(** *** Hit points *)

(** C2. The invariant fails on rows the code writes. [create_user]
    stores level 1 with [hp = max_hp = 100], where the formula gives
    10. [add_xp] stores the formula value as [max_hp] when the level
    changes and writes no [hp]: the first grant that lifts a new user
    to level 2 (60 points) stores [max_hp = 20] and leaves [hp] at 100,
    above the maximum; the column check and the commit of [Pg] change
    nothing in this. Six daily stickers of a new author, at 10 points
    each, end in the same level, [hp] and [max_hp]. *)
Theorem grant_leaves_hp_above_max_hp :
  let created := User.mk 7 "ann" 1 0 100 100 0 0 0 None None None in
  let granted := User.mk 7 "ann" 2 60 100 20 0 0 0 None None None in
  let w1 := exec (create_user 7 "ann") Sample.w_empty in
  let w2 := exec (add_xp 7 60) w1 in
  let s1 := Pg.exec (Pg.create_user 7 "ann") (Pg.settled Sample.w_empty) in
  let w6 := foldl (λ w today, exec (handle_joy_sticker Sample.cfg today 7 "ann") w)
              Sample.w_empty [100; 101; 102; 103; 104; 105] in
  users (db w1) !! 7 = Some created
  ∧ calculate_max_hp (User.level created) (User.user_class created) = 10
  ∧ ¬ hp_invariant created
  ∧ eval (add_xp 7 60) w1 = Ok (Some (mkXpResult 1 2 60 true 20))
  ∧ users (db w2) !! 7 = Some granted
  ∧ Pg.add_xp 7 60 s1
    = (Ok (Some (mkXpResult 1 2 60 true 20)), Pg.settled w2)
  ∧ calculate_max_hp (User.level granted) (User.user_class granted) = 20
  ∧ User.max_hp granted < User.hp granted
  ∧ ¬ hp_invariant granted
  ∧ users (db w6) !! 7
    = Some (User.mk 7 "ann" 2 60 100 20 0 6 0 None (Some 105) None).
Proof.
  intros created granted w1 w2 s1 w6.
  split; [vm_compute; reflexivity|]. split; [reflexivity|].
  split; [intros [Hmax _]; vm_compute in Hmax; discriminate Hmax|].
  split; [vm_compute; reflexivity|]. split; [vm_compute; reflexivity|].
  split; [vm_compute; reflexivity|]. split; [reflexivity|].
  split; [subst granted; cbn [User.hp User.max_hp]; lia|].
  split; [intros [_ [_ Hle]]; subst granted; cbn [User.hp User.max_hp] in Hle;
          lia|].
  vm_compute. reflexivity.
Qed.

End LedgerFacts.

(** ** The store behind the operations *)

Module StoreFacts.
Import Curve Db Bot Admin Outcome CurveFacts LedgerFacts.

(** *** Runs on a session *)

Lemma session_bind {A B} (m : Pg.T A) (f : A → Pg.T B) (s : Pg.Session) :
  (m ≫= f) s
  = match m s with
    | (Ok a, s') => f a s'
    | (Raise e, s') => (Raise e, s')
    end.
Proof. reflexivity. Qed.

Lemma session_ret {A} (a : A) (s : Pg.Session) : @mret Pg.T _ A a s = (Ok a, s).
Proof. reflexivity. Qed.

Lemma session_lift {A} (m : M A) (s : Pg.Session) r w' :
  m (Pg.now s) = (r, w') →
  Pg.lift m s = (r, Pg.mkSession w' (Pg.committed s)).
Proof. intros Hrun. unfold Pg.lift. by rewrite Hrun. Qed.

Lemma session_get_user id s :
  Pg.get_user id s = (Ok (users (db (Pg.now s)) !! id), s).
Proof.
  unfold Pg.get_user.
  rewrite (session_lift _ _ _ _ (run_get_user id (Pg.now s))). by destruct s.
Qed.

Lemma with_users_present w id u :
  users (db w) !! id = Some u → with_users w (<[id := u]> (users (db w))) = w.
Proof. intros Hu. by rewrite insert_id, with_users_same. Qed.

(** After [get_or_create_user] the row of the user is the dict
    fetched; a row created for it is pending. *)
Lemma session_get_or_create_user id name s :
  Pg.get_or_create_user id name s
  = (Ok (fetched id name (Pg.now s)),
     Pg.mkSession
       (with_users (Pg.now s)
          (<[id := fetched id name (Pg.now s)]> (users (db (Pg.now s)))))
       (Pg.committed s)).
Proof.
  unfold Pg.get_or_create_user, fetched.
  rewrite session_bind, session_get_user.
  destruct (users (db (Pg.now s)) !! id) as [u|] eqn:Hu;
    cbn [default from_option Datatypes.id].
  - rewrite session_ret, with_users_present by done. by destruct s.
  - unfold Pg.create_user. rewrite Hu. apply session_lift.
    pose proof (run_get_or_create_user id name (Pg.now s)) as Hrun.
    rewrite Hu in Hrun. rewrite <- Hrun.
    unfold get_or_create_user. by rewrite bind_run, run_get_user, Hu.
Qed.

Lemma session_update_user_fits id kwargs s u :
  forallb Pg.fits kwargs = true →
  users (db (Pg.now s)) !! id = Some u →
  Pg.update_user id kwargs s
  = (Ok (),
     Pg.settled (with_users (Pg.now s)
                   (<[id := foldl assign u kwargs]> (users (db (Pg.now s)))))).
Proof.
  intros Hfits Hu. unfold Pg.update_user. rewrite Hfits, session_bind.
  by rewrite (session_lift _ _ _ _ (run_update_user_present id kwargs _ u Hu)).
Qed.

Lemma session_update_user_rejected id kwargs s :
  forallb Pg.fits kwargs = false →
  Pg.update_user id kwargs s = (Raise NumericValueOutOfRange, Pg.rollback s).
Proof. intros Hfits. unfold Pg.update_user. by rewrite Hfits. Qed.

(** With nothing pending a rollback changes nothing. *)
Lemma rollback_settled w : Pg.rollback (Pg.settled w) = Pg.settled w.
Proof. by destruct w. Qed.

(** *** Values that fit *)

(** The level of an experience total that fits its column. *)
Lemma level_bound xp :
  int4 xp → 1 ≤ calculate_level_from_xp xp ≤ 35791395.
Proof.
  unfold int4. intros Hxp.
  destruct (calculate_level_from_xp_spec xp) as (_ & H1 & _ & Hlo).
  set (L := calculate_level_from_xp xp) in *.
  split; [lia|].
  destruct (decide (L = 1)) as [->|Hne]; [lia|].
  specialize (Hlo ltac:(lia)).
  rewrite calculate_xp_for_level_closed in Hlo by lia.
  pose proof (xp_closed_lower L H1). lia.
Qed.

Lemma calculate_max_hp_bounds level user_class :
  1 ≤ level → 0 ≤ calculate_max_hp level user_class ≤ 120 + 12 * level.
Proof.
  intros Hlevel. unfold calculate_max_hp.
  destruct (negb (truthy user_class) || _ || bool_decide (level < 3)) eqn:Hc;
    [lia|].
  apply orb_false_iff in Hc as [_ Hlt]. apply bool_decide_eq_false in Hlt.
  destruct (user_class ≫= _) as [[base per_level]|] eqn:Hlookup; [|lia].
  destruct user_class as [c|]; [|done]. simpl in Hlookup.
  apply elem_of_list_to_map_2 in Hlookup.
  repeat (apply elem_of_cons in Hlookup as [[= -> -> ->]|Hlookup]; [lia|]).
  by apply elem_of_nil in Hlookup.
Qed.

(** The three values [add_xp] stores fit their columns as soon as the
    new total does and the stored maximum HP did. *)
Lemma xp_row_fits u amount :
  int4 (User.max_hp u) →
  int4 (0 `max` (User.xp u + amount)) →
  int4 (User.xp (xp_row u amount))
  ∧ int4 (User.level (xp_row u amount))
  ∧ int4 (User.max_hp (xp_row u amount)).
Proof.
  intros Hmax Hxp. unfold xp_row.
  cbn [foldl assign User.xp User.level User.max_hp User.user_class].
  pose proof (level_bound _ Hxp) as Hlevel.
  split; [done|]. split; [unfold int4; lia|].
  case_bool_decide; [|done].
  pose proof (calculate_max_hp_bounds
                (calculate_level_from_xp (0 `max` (User.xp u + amount)))
                (User.user_class u) ltac:(lia)).
  unfold int4. lia.
Qed.

(** *** Runs of [add_xp] *)

Lemma session_add_xp_fits id amount s u :
  users (db (Pg.now s)) !! id = Some u →
  int4 (User.max_hp u) →
  int4 (0 `max` (User.xp u + amount)) →
  Pg.add_xp id amount s
  = (Ok (Some (xp_result u amount)),
     Pg.settled (with_users (Pg.now s)
                   (<[id := xp_row u amount]> (users (db (Pg.now s)))))).
Proof.
  intros Hu Hmax Hxp.
  destruct (xp_row_fits u amount Hmax Hxp) as (Hx & Hl & Hm).
  unfold Pg.add_xp. rewrite session_bind, session_get_user, Hu.
  cbv beta iota zeta.
  rewrite session_bind, (session_update_user_fits _ _ _ u); [done| |done].
  cbn [forallb Pg.fits]. unfold xp_row in Hx, Hl, Hm.
  cbn [foldl assign User.xp User.level User.max_hp User.user_class]
    in Hx, Hl, Hm.
  by rewrite !bool_decide_eq_true_2.
Qed.

Lemma session_add_xp_rejected id amount s u :
  users (db (Pg.now s)) !! id = Some u →
  ¬ int4 (0 `max` (User.xp u + amount)) →
  Pg.add_xp id amount s = (Raise NumericValueOutOfRange, Pg.rollback s).
Proof.
  intros Hu Hxp.
  unfold Pg.add_xp. rewrite session_bind, session_get_user, Hu.
  cbv beta iota zeta.
  rewrite session_bind, session_update_user_rejected; [done|].
  cbn [forallb Pg.fits]. by rewrite bool_decide_eq_false_2.
Qed.

End StoreFacts.

(** ** Further properties of the curve *)

Module CurveExtras.
Import Curve Db Bot CurveFacts.

(** The total of the level returned fits under a non-negative [xp]. *)
Lemma level_total_fits xp :
  0 ≤ xp → calculate_xp_for_level (calculate_level_from_xp xp) ≤ xp.
Proof.
  intros Hxp.
  destruct (calculate_level_from_xp_spec xp) as (_ & H1 & _ & Hlo).
  destruct (decide (calculate_level_from_xp xp = 1)) as [->|];
    [by change (0 ≤ xp)|].
  apply Hlo. lia.
Qed.

Lemma level_mono xp1 xp2 :
  xp1 ≤ xp2 → calculate_level_from_xp xp1 ≤ calculate_level_from_xp xp2.
Proof.
  intros Hle.
  destruct (calculate_level_from_xp_spec xp1) as (_ & H1 & _ & Hlo1).
  destruct (calculate_level_from_xp_spec xp2) as (_ & H2 & Hhi2 & _).
  set (R1 := calculate_level_from_xp xp1) in *.
  set (R2 := calculate_level_from_xp xp2) in *.
  destruct (decide (R1 ≤ R2)) as [|Hgt]; [done|]. exfalso.
  specialize (Hlo1 ltac:(lia)).
  rewrite calculate_xp_for_level_closed in Hlo1, Hhi2 by lia.
  destruct (decide (R2 + 1 = R1)) as [<-|]; [lia|].
  pose proof (xp_closed_mono (R2 + 1) R1 ltac:(lia) ltac:(lia)). lia.
Qed.

(** X1. For a non-negative [xp] the level returned is the largest level
    whose total fits: its total is at most [xp], the total of the next
    level exceeds [xp], and no level with a total within [xp] is
    higher. For a negative [xp] the level is 1. *)
Theorem level_is_largest_affordable (xp : Z) :
  (0 ≤ xp →
     calculate_xp_for_level (calculate_level_from_xp xp) ≤ xp
     ∧ xp < calculate_xp_for_level (calculate_level_from_xp xp + 1)
     ∧ ∀ L, calculate_xp_for_level L ≤ xp → L ≤ calculate_level_from_xp xp)
  ∧ (xp < 0 → calculate_level_from_xp xp = 1).
Proof.
  destruct (calculate_level_from_xp_spec xp) as (_ & H1 & Hhi & Hlo).
  set (R := calculate_level_from_xp xp) in *.
  split.
  - intros Hxp. split; [|split; [done|]].
    + by apply level_total_fits.
    + intros L HL. destruct (decide (L ≤ R)) as [|Hgt]; [done|].
      exfalso.
      rewrite calculate_xp_for_level_closed in Hhi, HL by lia.
      pose proof (xp_closed_mono (R + 1) L ltac:(lia)) as Hmono.
      destruct (decide (R + 1 = L)) as [<-|]; lia.
  - intros Hneg. apply calculate_level_from_xp_unique; [lia|lia|].
    change (calculate_xp_for_level (1 + 1)) with 60. lia.
Qed.

Lemma level_is_largest_affordable_witness :
  0 ≤ 950
  ∧ calculate_xp_for_level (calculate_level_from_xp 950) ≤ 950
  ∧ (calculate_xp_for_level 16 ≤ 950 → 16 ≤ calculate_level_from_xp 950)
  ∧ -3 < 0
  ∧ calculate_level_from_xp (-3) = 1.
Proof.
  destruct (level_is_largest_affordable 950) as [Hpos _].
  destruct (Hpos ltac:(lia)) as (Hlo & _ & Hmax).
  destruct (level_is_largest_affordable (-3)) as [_ Hneg].
  split; [lia|]. split; [exact Hlo|]. split; [exact (Hmax 16)|].
  split; [lia|]. apply Hneg. lia.
Defined.

(** X2. More experience never gives a lower level. *)
Theorem level_from_xp_monotone (xp1 xp2 : Z) :
  xp1 ≤ xp2 → calculate_level_from_xp xp1 ≤ calculate_level_from_xp xp2.
Proof. apply level_mono. Qed.

Lemma level_from_xp_monotone_witness :
  100 ≤ 3000 ∧ calculate_level_from_xp 100 ≤ calculate_level_from_xp 3000.
Proof. split; [lia|]. apply level_from_xp_monotone. lia. Defined.

(** X3. For a fixed class, a higher level never has a lower maximum
    HP; in particular the switch to the class formula at level 3 does
    not lose HP. *)
Theorem max_hp_monotone_in_level (level level' : Z) (user_class : option string) :
  level ≤ level' →
  calculate_max_hp level user_class ≤ calculate_max_hp level' user_class.
Proof.
  intros Hle. unfold calculate_max_hp.
  destruct (negb (truthy user_class) || bool_decide (user_class = Some "peasant"))
    eqn:Hpeasant; cbn [orb]; [lia|].
  destruct (user_class ≫= _) as [[base per_level]|] eqn:Hlookup.
  - assert (70 ≤ base ∧ 0 ≤ per_level) as [Hbase Hper].
    { destruct user_class as [c|]; [|done]. simpl in Hlookup.
      apply elem_of_list_to_map_2 in Hlookup.
      repeat (apply elem_of_cons in Hlookup as [[= -> -> ->]|Hlookup]; [lia|]).
      by apply elem_of_nil in Hlookup. }
    repeat case_bool_decide; nia.
  - repeat case_bool_decide; lia.
Qed.

Lemma max_hp_monotone_in_level_witness :
  2 ≤ 3
  ∧ calculate_max_hp 2 (Some "pit_wizard") ≤ calculate_max_hp 3 (Some "pit_wizard").
Proof. split; [lia|]. apply max_hp_monotone_in_level. lia. Defined.

(** X4. For a row whose level is the level of its non-negative
    experience, the progress shown by [profile] is within the step:
    [0 ≤ xp_progress < xp_needed], and the step is 60, 90 or 120, so
    the guard [xp_needed > 0] of the progress bar holds. *)
Theorem profile_progress_within_step (user : User.t) :
  0 ≤ User.xp user →
  User.level user = calculate_level_from_xp (User.xp user) →
  0 ≤ xp_progress user < xp_needed user
  ∧ (xp_needed user = 60 ∨ xp_needed user = 90 ∨ xp_needed user = 120).
Proof.
  intros Hxp Hlevel. unfold xp_progress, xp_needed. rewrite Hlevel.
  pose proof (level_total_fits (User.xp user) Hxp) as Hlo.
  destruct (calculate_level_from_xp_spec (User.xp user)) as (_ & H1 & Hhi & _).
  split; [lia|].
  set (R := calculate_level_from_xp (User.xp user)) in *.
  rewrite !calculate_xp_for_level_closed by lia.
  unfold xp_closed. repeat case_bool_decide; lia.
Qed.

Lemma profile_progress_within_step_witness :
  0 ≤ User.xp Sample.ann_gap
  ∧ 0 ≤ xp_progress Sample.ann_gap < xp_needed Sample.ann_gap.
Proof.
  split; [vm_compute; discriminate|].
  apply (profile_progress_within_step Sample.ann_gap).
  - vm_compute. discriminate.
  - reflexivity.
Defined.

End CurveExtras.

(** ** Further properties of the repository *)

Module RepoExtras.
Import Curve Db Bot Outcome CurveFacts LedgerFacts StoreFacts CurveExtras.

Lemma run_damage_user_present id damage w u :
  users (db w) !! id = Some u →
  damage_user id damage w
  = (Ok (Some (mkDamageResult (User.hp u) (0 `max` (User.hp u - damage)) damage
                 (bool_decide (0 `max` (User.hp u - damage) = 0)))),
     with_users w (<[id := assign u (hp_ (0 `max` (User.hp u - damage)))]>
                     (users (db w)))).
Proof.
  intros Hu. unfold damage_user. rewrite bind_run, run_get_user, Hu.
  cbv beta iota zeta.
  rewrite bind_run, (run_update_user_present _ _ _ u) by done.
  reflexivity.
Qed.

Lemma run_heal_user_present id amount w u :
  users (db w) !! id = Some u →
  heal_user id amount w
  = (Ok (Some (mkHealResult (User.hp u)
                 (User.max_hp u `min` (User.hp u + amount))
                 (User.max_hp u `min` (User.hp u + amount) - User.hp u))),
     with_users w
       (<[id := assign u (hp_ (User.max_hp u `min` (User.hp u + amount)))]>
          (users (db w)))).
Proof.
  intros Hu. unfold heal_user. rewrite bind_run, run_get_user, Hu.
  cbv beta iota zeta.
  rewrite bind_run, (run_update_user_present _ _ _ u) by done.
  reflexivity.
Qed.

(** X5. After [add_daily_sender] the check for that user and day is
    true and the check for any other pair is as before; a second
    insertion of the same pair changes nothing, and the primary key of
    the ledger is kept. *)
Theorem daily_sender_round_trip (id day : Z) (w : World) :
  let w' := exec (add_daily_sender id day) w in
  eval (check_daily_sender id day) w' = Ok true
  ∧ (∀ id2 day2, (id2, day2) ≠ (id, day) →
       eval (check_daily_sender id2 day2) w'
       = eval (check_daily_sender id2 day2) w)
  ∧ exec (add_daily_sender id day) w' = w'
  ∧ (ledger_ok (db w) → ledger_ok (db w'))
  ∧ users (db w') = users (db w)
  ∧ server_stats (db w') = server_stats (db w).
Proof.
  intros w'. subst w'. unfold exec, eval.
  rewrite !run_check_daily_sender. cbn [fst].
  destruct (decide ((id, day) ∈ daily_senders (db w))) as [Hin|Hnotin].
  - assert (add_daily_sender id day w = (Ok (), w)) as Hrun.
    { unfold add_daily_sender. rewrite bind_run. cbn.
      by rewrite bool_decide_eq_true_2. }
    rewrite Hrun. cbn [snd]. rewrite Hrun. cbn [snd].
    rewrite bool_decide_eq_true_2 by done. done.
  - rewrite run_add_daily_sender by done. cbn [snd db daily_senders users
                                               server_stats].
    assert ((id, day) ∈ daily_senders (db w) ++ [(id, day)]) as Hin'.
    { apply elem_of_app. right. by apply list_elem_of_singleton. }
    split; [by rewrite bool_decide_eq_true_2|].
    split; [|split; [|split; [|done]]].
    + intros id2 day2 Hne. rewrite !run_check_daily_sender.
      cbn [fst db daily_senders]. f_equal. apply bool_decide_ext.
      rewrite elem_of_app, list_elem_of_singleton. tauto.
    + unfold add_daily_sender. rewrite bind_run. cbn.
      by rewrite bool_decide_eq_true_2.
    + unfold ledger_ok. intros Hok. cbn. apply NoDup_app.
      split; [done|]. split; [|apply NoDup_singleton].
      intros x Hx Hx'. apply list_elem_of_singleton in Hx'. by subst x.
Qed.

Lemma daily_sender_round_trip_witness :
  ledger_ok (db Sample.w_gap)
  ∧ eval (check_daily_sender 7 100) (exec (add_daily_sender 7 100) Sample.w_gap)
    = Ok true
  ∧ ledger_ok (db (exec (add_daily_sender 7 100) Sample.w_gap)).
Proof.
  assert (ledger_ok (db Sample.w_gap)) as Hok by apply NoDup_singleton.
  destruct (daily_sender_round_trip 7 100 Sample.w_gap)
    as (Hcheck & _ & _ & Hkey & _).
  split; [exact Hok|]. split; [exact Hcheck | exact (Hkey Hok)].
Defined.

(** X6. [reset_daily_senders] keeps exactly the rows dated at most 7
    days before the current date (so the rows of today stay and a double
    submission is still detected), keeps the primary key, touches
    nothing else, and a second run changes nothing. *)
Theorem reset_daily_senders_keeps_last_week (current_date : Z) (w : World) :
  let w' := exec (reset_daily_senders current_date) w in
  (∀ id day, (id, day) ∈ daily_senders (db w')
             ↔ (id, day) ∈ daily_senders (db w) ∧ current_date - 7 ≤ day)
  ∧ (∀ id today, current_date - 7 ≤ today →
       eval (check_daily_sender id today) w'
       = eval (check_daily_sender id today) w)
  ∧ (ledger_ok (db w) → ledger_ok (db w'))
  ∧ exec (reset_daily_senders current_date) w' = w'
  ∧ users (db w') = users (db w)
  ∧ server_stats (db w') = server_stats (db w)
  ∧ outbox w' = outbox w.
Proof.
  intros w'. subst w'. unfold exec, reset_daily_senders.
  rewrite !bind_run. cbn.
  assert (∀ id day,
            (id, day) ∈ filter (λ r : Z * Z, ¬ r.2 < current_date - 7)
                          (daily_senders (db w))
            ↔ (id, day) ∈ daily_senders (db w) ∧ current_date - 7 ≤ day)
    as Hkeep.
  { intros id day. rewrite list_elem_of_filter. cbn. split; intros []; split;
      first [done | lia]. }
  split; [exact Hkeep|]. split; [|split; [|split; [|done]]].
  - intros id today Htoday. unfold eval. rewrite !run_check_daily_sender.
    cbn. f_equal. apply bool_decide_ext. rewrite Hkeep. tauto.
  - unfold ledger_ok. cbn. apply NoDup_filter.
  - by rewrite list_filter_filter_l by auto.
Qed.

Lemma reset_daily_senders_keeps_last_week_witness :
  ledger_ok (db Sample.w_gap)
  ∧ 105 - 7 ≤ 100
  ∧ ledger_ok (db (exec (reset_daily_senders 105) Sample.w_gap))
  ∧ daily_senders (db (exec (reset_daily_senders 105) Sample.w_gap)) = []
  ∧ eval (check_daily_sender 7 100) (exec (reset_daily_senders 105) Sample.w_gap)
    = eval (check_daily_sender 7 100) Sample.w_gap.
Proof.
  assert (ledger_ok (db Sample.w_gap)) as Hok by apply NoDup_singleton.
  destruct (reset_daily_senders_keeps_last_week 105 Sample.w_gap)
    as (_ & Hcheck & Hkey & _).
  split; [exact Hok|]. split; [lia|]. split; [exact (Hkey Hok)|].
  split; [reflexivity|]. apply Hcheck. lia.
Defined.

(** X7. [damage_user] on a stored user: the stored HP is
    [max 0 (hp - damage)] and never negative; [died] is reported exactly
    when the damage reaches the HP held before; a non-negative damage
    never raises the HP, so
    [0 ≤ hp ≤ max_hp] is kept; every other column and every other
    user stay as they were. *)
Theorem damage_user_clamps_at_zero (id damage : Z) (w : World) (u : User.t) :
  users (db w) !! id = Some u →
  ∃ r u',
    damage_user id damage w
    = (Ok (Some r), with_users w (<[id := u']> (users (db w))))
    ∧ u' = assign u (hp_ (User.hp u'))
    ∧ User.hp u' = 0 `max` (User.hp u - damage)
    ∧ 0 ≤ User.hp u'
    ∧ dmg_old_hp r = User.hp u ∧ dmg_new_hp r = User.hp u'
    ∧ (died r = true ↔ User.hp u ≤ damage)
    ∧ (0 ≤ damage → 0 ≤ User.hp u ≤ User.max_hp u →
       0 ≤ User.hp u' ≤ User.max_hp u' ∧ User.hp u' ≤ User.hp u).
Proof.
  intros Hu. eexists _, _. split; [by apply run_damage_user_present|].
  cbn [assign User.hp User.max_hp dmg_old_hp dmg_new_hp died].
  split; [done|]. split; [done|]. split; [lia|]. split; [done|].
  split; [done|]. split; [|lia].
  rewrite bool_decide_eq_true. lia.
Qed.

Lemma damage_user_clamps_at_zero_witness :
  users (db Sample.w_gap) !! 7 = Some Sample.ann_gap
  ∧ ∃ r u',
      damage_user 7 250 Sample.w_gap
      = (Ok (Some r),
         with_users Sample.w_gap (<[7 := u']> (users (db Sample.w_gap))))
      ∧ User.hp u' = 0
      ∧ died r = true.
Proof.
  split; [reflexivity|].
  destruct (damage_user_clamps_at_zero 7 250 Sample.w_gap Sample.ann_gap eq_refl)
    as (r & u' & Hrun & _ & Hhp & _ & _ & _ & Hdied & _).
  exists r, u'. split; [exact Hrun|]. split; [exact Hhp|].
  apply Hdied. vm_compute. discriminate.
Defined.

(** X8. [heal_user] on a stored user: the stored HP is
    [min max_hp (hp + amount)], so it never exceeds the maximum; with a
    non-negative amount and an HP within the maximum the HP does not
    drop, the reported [healed] is the non-negative gain, and at full
    HP nothing is healed; [0 ≤ hp ≤ max_hp] is kept. Every other
    column and every other user stay as they were. *)
Theorem heal_user_caps_at_max (id amount : Z) (w : World) (u : User.t) :
  users (db w) !! id = Some u →
  ∃ r u',
    heal_user id amount w
    = (Ok (Some r), with_users w (<[id := u']> (users (db w))))
    ∧ u' = assign u (hp_ (User.hp u'))
    ∧ User.hp u' = User.max_hp u `min` (User.hp u + amount)
    ∧ User.hp u' ≤ User.max_hp u'
    ∧ heal_old_hp r = User.hp u ∧ heal_new_hp r = User.hp u'
    ∧ healed r = User.hp u' - User.hp u
    ∧ (0 ≤ amount → User.hp u ≤ User.max_hp u →
       User.hp u ≤ User.hp u' ∧ 0 ≤ healed r ≤ amount
       ∧ (User.hp u = User.max_hp u → healed r = 0)
       ∧ (0 ≤ User.hp u → 0 ≤ User.hp u' ≤ User.max_hp u')).
Proof.
  intros Hu. eexists _, _. split; [by apply run_heal_user_present|].
  cbn [assign User.hp User.max_hp heal_old_hp heal_new_hp healed].
  repeat split; try done; lia.
Qed.

Lemma heal_user_caps_at_max_witness :
  users (db Sample.w_gap) !! 7 = Some Sample.ann_gap
  ∧ 0 ≤ 30
  ∧ ∃ r u',
      heal_user 7 30 Sample.w_gap
      = (Ok (Some r),
         with_users Sample.w_gap (<[7 := u']> (users (db Sample.w_gap))))
      ∧ User.hp u' = 100
      ∧ healed r = 0.
Proof.
  split; [reflexivity|]. split; [lia|].
  destruct (heal_user_caps_at_max 7 30 Sample.w_gap Sample.ann_gap eq_refl)
    as (r & u' & Hrun & _ & Hhp & _ & _ & _ & _ & Hgain).
  exists r, u'. split; [exact Hrun|]. split; [exact Hhp|].
  destruct (Hgain ltac:(lia) ltac:(vm_compute; discriminate))
    as (_ & _ & Hfull & _).
  apply Hfull. reflexivity.
Defined.

(** X9. [add_xp] on a stored user whose maximum HP fits its column.
    When the new total [max 0 (xp + amount)] fits the INTEGER column,
    only the experience, the level and the maximum HP of that user are
    written, and committed: the current HP, coins, streak and dates keep
    their values and every other row is as before. The stored
    experience is never negative, the stored level is at least 1, the
    three values stored fit their columns, and the dict returned reports
    them. When the new total does not fit, the UPDATE is rejected: the
    error is raised, no dict is returned and the transaction is rolled
    back, which with nothing pending leaves the store as it was. *)
Theorem add_xp_touches_only_progress (id xp_amount : Z) (s : Pg.Session)
    (u : User.t) :
  users (db (Pg.now s)) !! id = Some u →
  int4 (User.max_hp u) →
  (int4 (0 `max` (User.xp u + xp_amount)) →
   ∃ r u',
     Pg.add_xp id xp_amount s
     = (Ok (Some r),
        Pg.settled (with_users (Pg.now s)
                      (<[id := u']> (users (db (Pg.now s))))))
     ∧ u' = foldl assign u
              [xp_ (User.xp u'); level_ (User.level u'); max_hp_ (User.max_hp u')]
     ∧ User.hp u' = User.hp u
     ∧ User.coins u' = User.coins u
     ∧ User.streak u' = User.streak u
     ∧ User.last_joy_sent u' = User.last_joy_sent u
     ∧ User.xp u' = 0 `max` (User.xp u + xp_amount)
     ∧ 0 ≤ User.xp u'
     ∧ 1 ≤ User.level u'
     ∧ int4 (User.xp u') ∧ int4 (User.level u') ∧ int4 (User.max_hp u')
     ∧ old_level r = User.level u
     ∧ new_level r = User.level u'
     ∧ res_xp r = User.xp u'
     ∧ res_max_hp r = User.max_hp u'
     ∧ (leveled_up r = true ↔ User.level u < User.level u'))
  ∧ (¬ int4 (0 `max` (User.xp u + xp_amount)) →
     2147483647 < User.xp u + xp_amount
     ∧ Pg.add_xp id xp_amount s = (Raise NumericValueOutOfRange, Pg.rollback s)
     ∧ (∀ w, s = Pg.settled w → Pg.rollback s = s)).
Proof.
  intros Hu Hmax. split.
  - intros Hxp. exists (xp_result u xp_amount), (xp_row u xp_amount).
    split; [by apply session_add_xp_fits|].
    destruct (xp_row_fits u xp_amount Hmax Hxp) as (Hx & Hl & Hm).
    pose proof (level_bound _ Hxp) as Hlevel.
    split; [reflexivity|]. split; [reflexivity|]. split; [reflexivity|].
    split; [reflexivity|]. split; [reflexivity|]. split; [reflexivity|].
    split; [unfold xp_row; cbn [foldl assign User.xp]; lia|].
    split; [apply Hlevel|].
    split; [done|]. split; [done|]. split; [done|].
    split; [reflexivity|]. split; [reflexivity|]. split; [reflexivity|].
    split; [reflexivity|].
    unfold xp_result, xp_row. cbn [leveled_up foldl assign User.level].
    by rewrite bool_decide_eq_true.
  - intros Hxp. split; [unfold int4 in Hxp; lia|].
    split; [by apply (session_add_xp_rejected _ _ _ u)|].
    intros w ->. apply rollback_settled.
Qed.

Lemma add_xp_touches_only_progress_witness :
  let s := Pg.settled Sample.w_gap in
  users (db (Pg.now s)) !! 7 = Some Sample.ann_gap
  ∧ int4 (User.max_hp Sample.ann_gap)
  ∧ int4 (0 `max` (User.xp Sample.ann_gap + -500))
  ∧ (¬ int4 (0 `max` (User.xp Sample.ann_gap + 2147483647)))
  ∧ (∃ r u',
       Pg.add_xp 7 (-500) s
       = (Ok (Some r),
          Pg.settled (with_users Sample.w_gap
                        (<[7 := u']> (users (db Sample.w_gap)))))
       ∧ User.hp u' = 100 ∧ User.xp u' = 0 `max` (40 + -500)
       ∧ 1 ≤ User.level u')
  ∧ Pg.add_xp 7 2147483647 s = (Raise NumericValueOutOfRange, s).
Proof.
  intros s.
  assert (int4 (User.max_hp Sample.ann_gap)) as Hmax
    by (vm_compute; intuition discriminate).
  assert (int4 (0 `max` (User.xp Sample.ann_gap + -500))) as Hfits
    by (vm_compute; intuition discriminate).
  assert (¬ int4 (0 `max` (User.xp Sample.ann_gap + 2147483647))) as Hover
    by (vm_compute; intros [_ H]; apply H; reflexivity).
  split; [reflexivity|]. split; [exact Hmax|]. split; [exact Hfits|].
  split; [exact Hover|]. split.
  - destruct (proj1 (add_xp_touches_only_progress 7 (-500) s
                       Sample.ann_gap eq_refl Hmax) Hfits)
      as (r & u' & Hrun & _ & Hhp & _ & _ & _ & Hxp & _ & Hlevel & _).
    exists r, u'. split; [exact Hrun|]. split; [exact Hhp|].
    split; [exact Hxp | exact Hlevel].
  - destruct (proj2 (add_xp_touches_only_progress 7 2147483647 s
                       Sample.ann_gap eq_refl Hmax) Hover)
      as (_ & Hrun & Hsame).
    rewrite Hrun, (Hsame Sample.w_gap eq_refl). reflexivity.
Defined.

(** X10. For a stored user whose experience is non-negative, whose
    level is the level of that experience and whose maximum HP fits its
    column, two successive non-negative grants leave the same store as
    one grant of their sum, as long as the final total fits the INTEGER
    column. When the first total fits and the final one does not, they
    differ: the first of the two grants is stored and committed and the
    second is rejected, while the single grant of the sum is rejected
    and stores nothing. *)
Theorem add_xp_grants_compose (id a b : Z) (s : Pg.Session) (u : User.t) :
  users (db (Pg.now s)) !! id = Some u →
  int4 (User.max_hp u) →
  0 ≤ User.xp u →
  User.level u = calculate_level_from_xp (User.xp u) →
  0 ≤ a → 0 ≤ b →
  (User.xp u + (a + b) ≤ 2147483647 →
   Pg.exec (Pg.add_xp id b) (Pg.exec (Pg.add_xp id a) s)
   = Pg.exec (Pg.add_xp id (a + b)) s
   ∧ ∃ r, Pg.eval (Pg.add_xp id (a + b)) s = Ok (Some r)
          ∧ res_xp r = User.xp u + (a + b))
  ∧ (User.xp u + a ≤ 2147483647 → 2147483647 < User.xp u + (a + b) →
     Pg.exec (Pg.add_xp id a) s
     = Pg.settled (with_users (Pg.now s)
                     (<[id := xp_row u a]> (users (db (Pg.now s)))))
     ∧ User.xp (xp_row u a) = User.xp u + a
     ∧ Pg.add_xp id b (Pg.exec (Pg.add_xp id a) s)
       = (Raise NumericValueOutOfRange, Pg.exec (Pg.add_xp id a) s)
     ∧ Pg.add_xp id (a + b) s = (Raise NumericValueOutOfRange, Pg.rollback s)).
Proof.
  intros Hu Hmax Hxp Hlevel Ha Hb.
  assert (∀ c, 0 ≤ c → User.xp u + c ≤ 2147483647 →
               int4 (0 `max` (User.xp u + c))) as Hfits
    by (intros c Hc Hle; unfold int4; lia).
  assert (∀ c, 0 ≤ c → User.xp u + c ≤ 2147483647 →
               Pg.add_xp id c s
               = (Ok (Some (xp_result u c)),
                  Pg.settled (with_users (Pg.now s)
                                (<[id := xp_row u c]> (users (db (Pg.now s)))))))
    as Hrun by (intros c Hc Hle; apply session_add_xp_fits; auto).
  assert (∀ c, users (db (Pg.now
                 (Pg.settled (with_users (Pg.now s)
                                (<[id := xp_row u c]> (users (db (Pg.now s))))))))
               !! id = Some (xp_row u c)) as Hrow
    by (intros c; unfold with_users; cbn; apply lookup_insert_eq).
  assert (∀ c, 0 ≤ c → User.xp (xp_row u c) = User.xp u + c) as Hsum
    by (intros c Hc; unfold xp_row; cbn [foldl assign User.xp]; lia).
  split.
  - intros Hle. unfold Pg.exec, Pg.eval.
    rewrite (Hrun a), (Hrun (a + b)) by lia. cbn [fst snd].
    split; [|eexists; split; [reflexivity|];
             unfold xp_result; cbn [res_xp]; lia].
    destruct (xp_row_fits u a Hmax (Hfits a Ha ltac:(lia))) as (_ & _ & Hmax1).
    rewrite (session_add_xp_fits id b _ (xp_row u a) (Hrow a) Hmax1)
      by (rewrite Hsum by done; unfold int4; lia).
    cbn [snd]. unfold Pg.settled, with_users.
    cbn [Pg.now db users daily_senders server_stats outbox].
    rewrite insert_insert_eq.
    assert (xp_row (xp_row u a) b = xp_row u (a + b)) as ->; [|done].
    unfold xp_row.
    cbn [foldl assign User.hp User.max_hp User.xp User.level User.coins
         User.streak User.last_joy_sent User.user_class User.discord_id
         User.username User.depth User.last_coin_claim].
    replace (0 `max` (0 `max` (User.xp u + a) + b))
      with (0 `max` (User.xp u + (a + b))) by lia.
    set (l2 := calculate_level_from_xp (0 `max` (User.xp u + (a + b)))).
    set (l1 := calculate_level_from_xp (0 `max` (User.xp u + a))).
    assert (User.level u ≤ l1) as H01
      by (rewrite Hlevel; apply level_mono; lia).
    assert (l1 ≤ l2) as H12 by (apply level_mono; lia).
    f_equal. repeat case_bool_decide; first [done | lia | congruence].
  - intros Hle Hover. unfold Pg.exec.
    rewrite (Hrun a) by lia. cbn [snd].
    split; [done|]. split; [by apply Hsum|]. split.
    + rewrite (session_add_xp_rejected _ _ _ (xp_row u a) (Hrow a))
        by (rewrite Hsum by done; unfold int4; lia).
      by rewrite rollback_settled.
    + apply (session_add_xp_rejected _ _ _ u Hu). unfold int4. lia.
Qed.

Lemma add_xp_grants_compose_witness :
  let s := Pg.settled Sample.w_gap in
  users (db (Pg.now s)) !! 7 = Some Sample.ann_gap
  ∧ 0 ≤ 50 ∧ 0 ≤ 400 ∧ 0 ≤ 2147483600
  ∧ Pg.exec (Pg.add_xp 7 400) (Pg.exec (Pg.add_xp 7 50) s)
    = Pg.exec (Pg.add_xp 7 (50 + 400)) s
  ∧ Pg.add_xp 7 2147483600 (Pg.exec (Pg.add_xp 7 50) s)
    = (Raise NumericValueOutOfRange, Pg.exec (Pg.add_xp 7 50) s)
  ∧ Pg.add_xp 7 (50 + 2147483600) s
    = (Raise NumericValueOutOfRange, Pg.rollback s).
Proof.
  intros s.
  assert (int4 (User.max_hp Sample.ann_gap)) as Hmax
    by (vm_compute; intuition discriminate).
  assert (0 ≤ User.xp Sample.ann_gap) as Hxp by (vm_compute; discriminate).
  split; [reflexivity|]. split; [lia|]. split; [lia|]. split; [lia|].
  split.
  - apply (proj1 (add_xp_grants_compose 7 50 400 s Sample.ann_gap
                    eq_refl Hmax Hxp eq_refl ltac:(lia) ltac:(lia))).
    vm_compute. discriminate.
  - destruct (proj2 (add_xp_grants_compose 7 50 2147483600 s
                        Sample.ann_gap eq_refl Hmax Hxp eq_refl
                        ltac:(lia) ltac:(lia)))
      as (_ & _ & Hsecond & Hsingle);
      [vm_compute; discriminate | vm_compute; reflexivity |].
    split; [exact Hsecond | exact Hsingle].
Defined.

End RepoExtras.

(** ** Further properties of the handlers *)

Module HandlerExtras.
Import Curve Db Bot Outcome CurveFacts LedgerFacts CurveExtras RepoExtras.

(** The run of a double submission. *)
Lemma run_double (cfg : Config) (today id : Z) (name : string) (w : World) :
  (id, today) ∈ daily_senders (db w) →
  handle_joy_sticker cfg today id name w
  = (Ok (),
     mkWorld
       (mkDatabase (<[id := assign (fetched id name w) (streak_ 0)]> (users (db w)))
          (daily_senders (db w)) (server_stats (db w)))
       (outbox w ++ [AddReaction BrokenHeart;
                     SendStreakBrokenTwice (User.streak (fetched id name w))])).
Proof.
  intros Hin. unfold handle_joy_sticker, fetched.
  rewrite bind_run, run_get_or_create_user.
  destruct (users (db w) !! id) as [u|] eqn:Hu.
  all: mrun; rewrite bool_decide_eq_true_2 by done; mrun.
  all: rewrite <- ?app_assoc, ?insert_insert_eq; reflexivity.
Qed.

(** The run of an accepted event, with the new table of users. *)
Lemma run_accepted_eq (cfg : Config) (today id : Z) (name : string)
    (w : World) (s : Stats.t) :
  (id, today) ∉ daily_senders (db w) →
  server_stats (db w) = Some s →
  handle_joy_sticker cfg today id name w
  = (Ok (),
     mkWorld
       (mkDatabase
          (<[id := accepted_row cfg today (fetched id name w)]> (users (db w)))
          (daily_senders (db w) ++ [(id, today)])
          (Some (accepted_stats today s)))
       (outbox w ++ accepted_messages cfg today (fetched id name w) s)).
Proof.
  intros Hnotin Hstats.
  destruct (run_accepted cfg today id name w s Hnotin Hstats)
    as (us & Hrun & Hrow & Hother).
  rewrite Hrun. do 3 f_equal. apply map_eq. intros j.
  destruct (decide (j = id)) as [->|Hne].
  - by rewrite lookup_insert_eq.
  - by rewrite lookup_insert_ne, Hother.
Qed.








End HandlerExtras.

(** ** Commands and their composition with the handlers *)

Module CommandExtras.
Import Curve Db Bot Admin Outcome CurveFacts LedgerFacts.
Import StoreFacts CurveExtras RepoExtras HandlerExtras.

Lemma run_try_except_ok {A} (body : M A) handler w a w' :
  body w = (Ok a, w') → try_except body handler w = (Ok a, w').
Proof. intros Hrun. unfold try_except. by rewrite Hrun. Qed.

Lemma run_reset_user id w :
  Db.reset_user id w = (Ok (), with_users w (delete id (users (db w)))).
Proof. reflexivity. Qed.


(** X14. A user reset by an admin on a day on which the user has
    already sent keeps the ledger row of that day: the next event of
    the same day recreates the row with the defaults and is handled as
    a double submission (streak 0, no experience, the break announced
    with streak 0, the server row untouched). *)
Theorem reset_then_same_day_event_is_double_submission
    (config : AdminConfig) (ctx : Ctx) (cfg : Config) (today id : Z)
    (name : string) (w : World) :
  is_admin config ctx = true →
  (id, today) ∈ daily_senders (db w) →
  let w1 := exec (Admin.reset_user config ctx id) w in
  let w2 := exec (handle_joy_sticker cfg today id name) w1 in
  eval (Admin.reset_user config ctx id) w = Ok UserReset
  ∧ users (db w1) !! id = None
  ∧ daily_senders (db w1) = daily_senders (db w)
  ∧ users (db w2) !! id
    = Some (User.mk id name 1 0 100 100 0 0 0 None None None)
  ∧ server_stats (db w2) = server_stats (db w)
  ∧ outbox w2 = outbox w ++ [AddReaction BrokenHeart; SendStreakBrokenTwice 0].
Proof.
  intros Hadmin Hin w1 w2. subst w2 w1.
  assert (Admin.reset_user config ctx id w
          = (Ok UserReset, with_users w (delete id (users (db w))))) as Hreset.
  { unfold Admin.reset_user. rewrite Hadmin. cbn [negb].
    apply run_try_except_ok. by rewrite bind_run, run_reset_user. }
  unfold exec, eval. rewrite Hreset. cbn [fst snd].
  rewrite run_double by done.
  unfold fetched, with_users.
  cbn [snd db users daily_senders server_stats outbox].
  rewrite lookup_delete_eq, lookup_insert_eq. done.
Qed.

Lemma reset_then_same_day_event_is_double_submission_witness :
  let config := mkAdminConfig ["Mod"] [] in
  let ctx := mkCtx (Some "AdminCommands") 1 9 "root" ["Mod"] (Some 3) in
  let w1 := exec (Admin.reset_user config ctx 7) Sample.w_today in
  is_admin config ctx = true
  ∧ (7, 100) ∈ daily_senders (db Sample.w_today)
  ∧ users (db (exec (handle_joy_sticker Sample.cfg 100 7 "ann") w1)) !! 7
    = Some (User.mk 7 "ann" 1 0 100 100 0 0 0 None None None).
Proof.
  intros config ctx w1.
  assert ((7, 100) ∈ daily_senders (db Sample.w_today)) as Hin
    by (apply list_elem_of_singleton; reflexivity).
  split; [reflexivity|]. split; [exact Hin|].
  destruct (reset_then_same_day_event_is_double_submission config ctx Sample.cfg
              100 7 "ann" Sample.w_today eq_refl Hin)
    as (_ & _ & _ & Hrow & _).
  exact Hrow.
Defined.

(** X15. After [reset_all_data] no user and no ledger row is left and
    the server row (when there is one) is back to streak 0 without a
    day; the first event afterwards creates its author with streak 1
    and the clamped reward, records the day and starts the server
    streak at 1, and sends no break message. *)
Theorem first_event_after_full_reset
    (cfg : Config) (today id : Z) (name : string) (w : World) (s : Stats.t) :
  server_stats (db w) = Some s →
  let w1 := exec reset_all_data w in
  let w2 := exec (handle_joy_sticker cfg today id name) w1 in
  db w1 = mkDatabase ∅ [] (Some (Stats.mk 0 None 0))
  ∧ outbox w1 = outbox w
  ∧ ∃ u' level_up,
      db w2 = mkDatabase {[ id := u' ]} [(id, today)]
                (Some (Stats.mk 1 (Some today) 0))
      ∧ User.streak u' = 1
      ∧ User.xp u' = 0 `max` joy_base_xp cfg
      ∧ User.last_joy_sent u' = Some today
      ∧ outbox w2 = outbox w ++ [AddReaction CheckMark;
                                 SendResponse (joy_base_xp cfg) level_up None].
Proof.
  intros Hstats w1 w2. subst w2 w1. unfold exec.
  assert (reset_all_data w
          = (Ok (), mkWorld (mkDatabase ∅ [] (Some (Stats.mk 0 None 0)))
                      (outbox w))) as Hreset.
  { unfold reset_all_data. rewrite bind_run. cbn. by rewrite Hstats. }
  rewrite Hreset. cbn [snd db outbox]. split; [done|]. split; [done|].
  rewrite (run_accepted_eq _ _ _ _ _ (Stats.mk 0 None 0))
    by (cbn; first [apply not_elem_of_nil | done]).
  cbn [snd db outbox users daily_senders server_stats app].
  assert (fetched id name
            {| db := {| users := ∅; daily_senders := [];
                        server_stats := Some (Stats.mk 0 None 0) |};
               outbox := outbox w |} = default_user id name) as ->
    by (unfold fetched; cbn; by rewrite lookup_empty).
  eexists _, _. split; [|split; [|split; [|split]]].
  - unfold accepted_stats. cbn [Stats.last_joy_sent].
    rewrite (bool_decide_eq_true_2 (None ≠ Some today)) by done.
    rewrite (bool_decide_eq_false_2 (None = Some (today - 1))) by done.
    cbn [Stats.total_monsters_killed]. by rewrite insert_empty.
  - reflexivity.
  - by rewrite accepted_row_xp.
  - reflexivity.
  - unfold accepted_messages.
    cbn [missed_yesterday default_user
         User.last_joy_sent User.streak Stats.server_streak app].
    rewrite (bool_decide_eq_false_2 (0 < 0)) by lia.
    rewrite andb_false_r. cbn [app].
    rewrite (bool_decide_eq_false_2 (0 + 1 ∈ milestones)); [reflexivity|].
    unfold milestones. rewrite !elem_of_cons, elem_of_nil. lia.
Qed.

Lemma first_event_after_full_reset_witness :
  let w2 := exec (handle_joy_sticker Sample.cfg 100 7 "ann")
              (exec reset_all_data Sample.w_gap) in
  server_stats (db Sample.w_gap) = Some Sample.stats_yesterday
  ∧ ∃ u', db w2 = mkDatabase {[ 7 := u' ]} [(7, 100)]
                    (Some (Stats.mk 1 (Some 100) 0))
      ∧ User.streak u' = 1.
Proof.
  split; [reflexivity|].
  destruct (first_event_after_full_reset Sample.cfg 100 7 "ann" Sample.w_gap
              Sample.stats_yesterday eq_refl)
    as (_ & _ & u' & level_up & Hdb & Hstreak & _).
  exists u'. split; [exact Hdb | exact Hstreak].
Defined.

Lemma session_try_except_ok {A} (body : Pg.T A) handler s a s' :
  body s = (Ok a, s') → Pg.try_except body handler s = (Ok a, s').
Proof. intros Hrun. unfold Pg.try_except. by rewrite Hrun. Qed.

Lemma session_try_except_raise {A} (body : Pg.T A) handler s e s' :
  body s = (Raise e, s') → Pg.try_except body handler s = handler e s'.
Proof. intros Hrun. unfold Pg.try_except. by rewrite Hrun. Qed.

Lemma session_claim_coins cfg today id name s :
  Pg.claim_coins cfg today id name s
  = let user := fetched id name (Pg.now s) in
    if bool_decide (User.last_coin_claim user = Some today)
    then
      (Ok (),
       Pg.mkSession
         (mkWorld
            (mkDatabase (<[id := user]> (users (db (Pg.now s))))
               (daily_senders (db (Pg.now s))) (server_stats (db (Pg.now s))))
            (outbox (Pg.now s) ++ [SendAlreadyClaimed]))
         (Pg.committed s))
    else
      let coins_earned := User.level user * daily_coins_per_level cfg in
      let new_coins := User.coins user + coins_earned in
      if bool_decide (int4 new_coins)
      then
        (Ok (),
         Pg.settled
           (mkWorld
              (mkDatabase
                 (<[id := foldl assign user
                            [coins_ new_coins; last_coin_claim_ (Some today)]]>
                    (users (db (Pg.now s))))
                 (daily_senders (db (Pg.now s))) (server_stats (db (Pg.now s))))
              (outbox (Pg.now s) ++ [SendCoinsClaimed coins_earned new_coins])))
      else (Raise NumericValueOutOfRange, Pg.rollback s).
Proof.
  unfold Pg.claim_coins.
  rewrite session_bind, session_get_or_create_user. cbv beta iota zeta.
  set (user := fetched id name (Pg.now s)).
  case_bool_decide as Hclaim.
  { by rewrite (session_lift _ _ _ _ (run_send _ _)). }
  rewrite session_bind.
  destruct (bool_decide (int4 _)) eqn:Hfits.
  - rewrite (session_update_user_fits _ _ _ user);
      [|by cbn [forallb Pg.fits]; rewrite Hfits
       |unfold with_users; cbn; apply lookup_insert_eq].
    rewrite (session_lift _ _ _ _ (run_send _ _)).
    unfold Pg.settled, with_users.
    cbn [Pg.now Pg.committed db users daily_senders server_stats outbox].
    by rewrite insert_insert_eq.
  - rewrite session_update_user_rejected;
      [done | by cbn [forallb Pg.fits]; rewrite Hfits].
Qed.

(** X16. The coin claim pays once per day. A claim by an author whose
    recorded claim day is not today, and whose new balance
    [coins + level * rate] fits the INTEGER column, stores the balance
    and today and commits, leaving every other column and user as they
    were; a second claim on the same day leaves the store as it is and
    answers that the coins were already claimed. When the new balance
    does not fit, the UPDATE is rejected: the error is raised, the
    transaction is rolled back and no message is sent; with nothing
    pending before the claim the store is as before (an author created
    for the claim is gone again), so that the next claim of the day is
    rejected in the same way. *)
Theorem claim_coins_once_per_day
    (cfg : Config) (today id : Z) (name : string) (s : Pg.Session) :
  let user := fetched id name (Pg.now s) in
  let coins_earned := User.level user * daily_coins_per_level cfg in
  let new_coins := User.coins user + coins_earned in
  User.last_coin_claim user ≠ Some today →
  (int4 new_coins →
   ∃ u1 w1,
     Pg.claim_coins cfg today id name s = (Ok (), Pg.settled w1)
     ∧ users (db w1) !! id = Some u1
     ∧ User.coins u1 = new_coins
     ∧ User.last_coin_claim u1 = Some today
     ∧ u1 = foldl assign user
              [coins_ (User.coins u1); last_coin_claim_ (Some today)]
     ∧ (∀ j, j ≠ id → users (db w1) !! j = users (db (Pg.now s)) !! j)
     ∧ outbox w1
       = outbox (Pg.now s) ++ [SendCoinsClaimed coins_earned new_coins]
     ∧ Pg.claim_coins cfg today id name (Pg.settled w1)
       = (Ok (),
          Pg.settled (mkWorld (db w1) (outbox w1 ++ [SendAlreadyClaimed]))))
  ∧ (¬ int4 new_coins →
     Pg.claim_coins cfg today id name s
     = (Raise NumericValueOutOfRange, Pg.rollback s)
     ∧ outbox (Pg.now (Pg.rollback s)) = outbox (Pg.now s)
     ∧ (∀ w, s = Pg.settled w →
          Pg.claim_coins cfg today id name s
          = (Raise NumericValueOutOfRange, s))).
Proof.
  intros user coins_earned new_coins Hclaim.
  rewrite (session_claim_coins cfg today id name s). fold user. cbv zeta.
  rewrite (bool_decide_eq_false_2 (User.last_coin_claim user = Some today))
    by done.
  fold coins_earned new_coins. split.
  - intros Hfits. rewrite (bool_decide_eq_true_2 (int4 new_coins)) by done.
    set (u1 := foldl assign user _).
    set (w1 := mkWorld _ _).
    assert (users (db w1) !! id = Some u1) as Hu1
      by (unfold w1; cbn [db users]; by rewrite lookup_insert_eq).
    assert (fetched id name w1 = u1) as Hf
      by (unfold fetched; by rewrite Hu1).
    exists u1, w1. split; [done|]. split; [done|].
    split; [reflexivity|]. split; [reflexivity|]. split; [reflexivity|].
    split; [by intros j Hj; unfold w1; cbn [db users];
            rewrite lookup_insert_ne|].
    split; [done|].
    rewrite (session_claim_coins cfg today id name (Pg.settled w1)).
    cbn [Pg.now Pg.settled Pg.committed]. rewrite Hf. cbv zeta.
    rewrite (bool_decide_eq_true_2 (User.last_coin_claim u1 = Some today))
      by reflexivity.
    rewrite insert_id by done. by destruct w1 as [[us l st] o].
  - intros Hfits. rewrite (bool_decide_eq_false_2 (int4 new_coins)) by done.
    split; [done|]. split; [done|]. intros w ->.
    by rewrite rollback_settled.
Qed.

Lemma claim_coins_once_per_day_witness :
  let s := Pg.settled Sample.w_gap in
  let rich := Pg.settled Sample.w_rich in
  User.last_coin_claim (fetched 7 "ann" (Pg.now s)) ≠ Some 100
  ∧ int4 (0 + 1 * 1)
  ∧ (¬ int4 (2147483647 + 1 * 1))
  ∧ (∃ u1 w1, Pg.claim_coins Sample.cfg 100 7 "ann" s = (Ok (), Pg.settled w1)
       ∧ users (db w1) !! 7 = Some u1
       ∧ User.coins u1 = 0 + 1 * 1)
  ∧ Pg.claim_coins Sample.cfg 100 7 "ann" rich
    = (Raise NumericValueOutOfRange, rich).
Proof.
  intros s rich.
  assert (User.last_coin_claim (fetched 7 "ann" (Pg.now s)) ≠ Some 100)
    as Hclaim by discriminate.
  assert (User.last_coin_claim (fetched 7 "ann" (Pg.now rich)) ≠ Some 100)
    as Hclaim' by discriminate.
  assert (int4 (0 + 1 * 1)) as Hfits by (vm_compute; intuition discriminate).
  assert (¬ int4 (2147483647 + 1 * 1)) as Hover
    by (vm_compute; intros [_ H]; apply H; reflexivity).
  split; [exact Hclaim|]. split; [exact Hfits|]. split; [exact Hover|].
  split.
  - destruct (proj1 (claim_coins_once_per_day Sample.cfg 100 7 "ann" s Hclaim)
                Hfits)
      as (u1 & w1 & Hrun & Hrow & Hcoins & _).
    exists u1, w1. split; [exact Hrun|]. split; [exact Hrow | exact Hcoins].
  - destruct (proj2 (claim_coins_once_per_day Sample.cfg 100 7 "ann" rich
                       Hclaim') Hover)
      as (_ & _ & Hsame).
    exact (Hsame Sample.w_rich eq_refl).
Defined.







Lemma session_give_xp_granted config ctx member_id member_name amount s :
  is_admin config ctx = true →
  let user := fetched member_id member_name (Pg.now s) in
  int4 (User.max_hp user) →
  int4 (0 `max` (User.xp user + amount)) →
  Pg.give_xp config ctx member_id member_name amount s
  = (Ok (XpGranted amount (User.xp (xp_row user amount))
           (if leveled_up (xp_result user amount)
            then Some (old_level (xp_result user amount),
                       new_level (xp_result user amount)) else None)),
     Pg.settled (with_users (Pg.now s)
                   (<[member_id := xp_row user amount]>
                      (users (db (Pg.now s)))))).
Proof.
  intros Hadmin user Hmax Hfits.
  unfold Pg.give_xp. rewrite Hadmin. cbn [negb]. apply session_try_except_ok.
  rewrite session_bind, session_get_or_create_user. fold user. cbv beta iota.
  rewrite session_bind, (session_add_xp_fits _ _ _ user)
    by first [ done | unfold with_users; cbn; apply lookup_insert_eq ].
  cbv beta iota.
  rewrite session_bind, (session_lift _ _ _ _ (run_subscript _ _)).
  cbv beta iota. rewrite session_ret. unfold Pg.settled, with_users.
  cbn [Pg.now Pg.committed db users daily_senders server_stats outbox].
  by rewrite insert_insert_eq.
Qed.

Lemma session_give_xp_failed config ctx member_id member_name amount s :
  is_admin config ctx = true →
  let user := fetched member_id member_name (Pg.now s) in
  ¬ int4 (0 `max` (User.xp user + amount)) →
  Pg.give_xp config ctx member_id member_name amount s
  = (Ok (Failed NumericValueOutOfRange), Pg.rollback s).
Proof.
  intros Hadmin user Hover.
  unfold Pg.give_xp. rewrite Hadmin. cbn [negb].
  erewrite session_try_except_raise; [reflexivity|].
  rewrite session_bind, session_get_or_create_user. fold user. cbv beta iota.
  rewrite session_bind, (session_add_xp_rejected _ _ _ user)
    by first [ done | unfold with_users; cbn; apply lookup_insert_eq ].
  reflexivity.
Qed.

(** X19. [give_xp] by an admin, for a target whose maximum HP fits its
    column, never fails on a missing target: it creates the target if
    needed and then grants. When the new total [max 0 (xp + amount)]
    fits the INTEGER column it is stored and committed, the reply
    reports it, and a level-up exactly when the stored level exceeds
    the level held before. When it does not fit, the UPDATE is rejected
    and the command replies with the failure: the transaction is rolled
    back, so with nothing pending before the command the store is as
    before, and a target created for the grant is gone again. *)
Theorem give_xp_creates_then_grants
    (config : AdminConfig) (ctx : Ctx) (member_id : Z) (member_name : string)
    (amount : Z) (s : Pg.Session) :
  is_admin config ctx = true →
  let user := fetched member_id member_name (Pg.now s) in
  int4 (User.max_hp user) →
  (int4 (0 `max` (User.xp user + amount)) →
   ∃ u' level_up,
     Pg.give_xp config ctx member_id member_name amount s
     = (Ok (XpGranted amount (User.xp u') level_up),
        Pg.settled (with_users (Pg.now s)
                      (<[member_id := u']> (users (db (Pg.now s))))))
     ∧ u' = xp_row user amount
     ∧ User.xp u' = 0 `max` (User.xp user + amount)
     ∧ (∀ a b, level_up = Some (a, b)
               ↔ a = User.level user ∧ b = User.level u' ∧ a < b))
  ∧ (¬ int4 (0 `max` (User.xp user + amount)) →
     2147483647 < User.xp user + amount
     ∧ Pg.give_xp config ctx member_id member_name amount s
       = (Ok (Failed NumericValueOutOfRange), Pg.rollback s)
     ∧ (∀ w, s = Pg.settled w →
          Pg.give_xp config ctx member_id member_name amount s
          = (Ok (Failed NumericValueOutOfRange), s))).
Proof.
  intros Hadmin user Hmax. split.
  - intros Hfits.
    exists (xp_row user amount),
      (if leveled_up (xp_result user amount)
       then Some (old_level (xp_result user amount),
                  new_level (xp_result user amount)) else None).
    split; [by apply session_give_xp_granted|].
    split; [reflexivity|]. split; [reflexivity|].
    intros a b. unfold xp_result, xp_row.
    cbn [leveled_up old_level new_level foldl assign User.level].
    case_bool_decide as Hup; split.
    + intros [= <- <-]. done.
    + intros (-> & -> & _). done.
    + done.
    + intros (-> & -> & Hlt). done.
  - intros Hover. split; [unfold int4 in Hover; lia|].
    rewrite (session_give_xp_failed config ctx member_id member_name amount s)
      by done.
    split; [done|]. intros w ->. by rewrite rollback_settled.
Qed.

Lemma give_xp_creates_then_grants_witness :
  let config := mkAdminConfig ["Mod"] [] in
  let ctx := mkCtx (Some "AdminCommands") 1 9 "root" ["Mod"] (Some 3) in
  let s := Pg.settled Sample.w_gap in
  is_admin config ctx = true
  ∧ users (db (Pg.now s)) !! 8 = None
  ∧ int4 (User.max_hp (fetched 8 "bob" (Pg.now s)))
  ∧ int4 (0 `max` (User.xp (fetched 8 "bob" (Pg.now s)) + 130))
  ∧ (¬ int4 (0 `max` (User.xp (fetched 8 "bob" (Pg.now s)) + 2147483648)))
  ∧ (∃ u' level_up,
       Pg.give_xp config ctx 8 "bob" 130 s
       = (Ok (XpGranted 130 (User.xp u') level_up),
          Pg.settled (with_users Sample.w_gap
                        (<[8 := u']> (users (db Sample.w_gap)))))
       ∧ User.xp u' = 0 `max` (0 + 130))
  ∧ Pg.give_xp config ctx 8 "bob" 2147483648 s
    = (Ok (Failed NumericValueOutOfRange), s).
Proof.
  intros config ctx s.
  assert (int4 (User.max_hp (fetched 8 "bob" (Pg.now s)))) as Hmax
    by (vm_compute; intuition discriminate).
  assert (int4 (0 `max` (User.xp (fetched 8 "bob" (Pg.now s)) + 130)))
    as Hfits by (vm_compute; intuition discriminate).
  assert (¬ int4 (0 `max` (User.xp (fetched 8 "bob" (Pg.now s)) + 2147483648)))
    as Hover by (vm_compute; intros [_ H]; apply H; reflexivity).
  split; [reflexivity|]. split; [reflexivity|]. split; [exact Hmax|].
  split; [exact Hfits|]. split; [exact Hover|]. split.
  - destruct (proj1 (give_xp_creates_then_grants config ctx 8 "bob" 130
                       s eq_refl Hmax) Hfits)
      as (u' & level_up & Hrun & _ & Hxp & _).
    exists u', level_up. split; [exact Hrun | exact Hxp].
  - destruct (proj2 (give_xp_creates_then_grants config ctx 8 "bob"
                       2147483648 s eq_refl Hmax) Hover)
      as (_ & _ & Hsame).
    exact (Hsame Sample.w_gap eq_refl).
Defined.

(** X20. [set_hp] by an admin stores the requested HP clamped into
    [0, max_hp]: the stored HP is never negative, never above a
    non-negative maximum, and equals the request when the request is
    within range; nothing else of the row changes and the reply shows
    the stored values. *)
Theorem set_hp_clamps
    (config : AdminConfig) (ctx : Ctx) (member_id : Z) (member_name : string)
    (hp : Z) (w : World) :
  is_admin config ctx = true →
  let user := fetched member_id member_name w in
  ∃ u',
    set_hp config ctx member_id member_name hp w
    = (Ok (HpUpdated (User.hp u') (User.max_hp u')),
       with_users w (<[member_id := u']> (users (db w))))
    ∧ u' = assign user (hp_ (User.hp u'))
    ∧ User.hp u' = 0 `max` (hp `min` User.max_hp user)
    ∧ 0 ≤ User.hp u'
    ∧ (0 ≤ User.max_hp user → User.hp u' ≤ User.max_hp u')
    ∧ (0 ≤ hp ≤ User.max_hp user → User.hp u' = hp).
Proof.
  intros Hadmin user.
  exists (assign user (hp_ (0 `max` (hp `min` User.max_hp user)))).
  split; [|cbn [assign User.hp User.max_hp]; repeat split; lia].
  unfold set_hp. rewrite Hadmin. cbn [negb]. apply run_try_except_ok.
  rewrite bind_run, run_get_or_create_user. subst user. unfold fetched.
  destruct (users (db w) !! member_id) as [u|] eqn:Hu; cbv beta iota zeta;
    cbn [default from_option Datatypes.id]; mrun;
    rewrite ?insert_insert_eq; reflexivity.
Qed.

Lemma set_hp_clamps_witness :
  let config := mkAdminConfig ["Mod"] [] in
  let ctx := mkCtx (Some "AdminCommands") 1 9 "root" ["Mod"] (Some 3) in
  is_admin config ctx = true
  ∧ ∃ u',
      set_hp config ctx 7 "ann" 250 Sample.w_gap
      = (Ok (HpUpdated (User.hp u') (User.max_hp u')),
         with_users Sample.w_gap (<[7 := u']> (users (db Sample.w_gap))))
      ∧ User.hp u' = 100.
Proof.
  intros config ctx. split; [reflexivity|].
  destruct (set_hp_clamps config ctx 7 "ann" 250 Sample.w_gap eq_refl)
    as (u' & Hrun & _ & Hhp & _).
  exists u'. split; [exact Hrun | exact Hhp].
Defined.

(** X21. The admin commands refuse everyone else: a caller who is not
    in the list of admin ids, is not the owner of the guild and holds no
    admin role (outside a guild roles do not count) gets the
    no-permission reply from [give_xp], [set_hp], [reset_user] and
    [newday], and the store is left as it is. The owner of the guild
    and the listed ids are always admins. *)
Theorem admin_commands_refuse_others (config : AdminConfig) (ctx : Ctx) :
  (author_id ctx ∉ admin_user_ids config →
   guild_owner_id ctx ≠ Some (author_id ctx) →
   (guild_owner_id ctx = None
    ∨ ∀ role, role ∈ author_roles ctx → role ∉ admin_roles config) →
   is_admin config ctx = false
   ∧ ∀ w member_id member_name n,
       give_xp config ctx member_id member_name n w = (Ok NoPermission, w)
       ∧ set_hp config ctx member_id member_name n w = (Ok NoPermission, w)
       ∧ Admin.reset_user config ctx member_id w = (Ok NoPermission, w)
       ∧ force_new_day config ctx w = (Ok NoPermission, w))
  ∧ (guild_owner_id ctx = Some (author_id ctx) → is_admin config ctx = true)
  ∧ (author_id ctx ∈ admin_user_ids config → is_admin config ctx = true).
Proof.
  split; [|split].
  - intros Hids Howner Hroles.
    assert (is_admin config ctx = false) as Hadmin.
    { unfold is_admin.
      rewrite (bool_decide_eq_false_2 (author_id ctx ∈ _)) by done.
      rewrite (bool_decide_eq_false_2 (guild_owner_id ctx = Some _)) by done.
      destruct Hroles as [Hguild|Hroles].
      - rewrite Hguild.
        by rewrite (bool_decide_eq_false_2 (is_Some None))
          by (intros [? [=]]).
      - replace (existsb _ _) with false; [by rewrite andb_false_r|].
        symmetry. apply not_true_is_false. intros Hex.
        apply existsb_exists in Hex as (role & Hin & Hrole).
        apply bool_decide_eq_true in Hrole.
        apply (Hroles role); [by apply list_elem_of_In|done]. }
    split; [done|]. intros w member_id member_name n.
    unfold give_xp, set_hp, Admin.reset_user, force_new_day.
    by rewrite Hadmin.
  - intros Howner. unfold is_admin.
    rewrite (bool_decide_eq_true_2 (guild_owner_id ctx = Some _)) by done.
    destruct (_ && _); [done|]. by destruct (bool_decide (author_id ctx ∈ _)).
  - intros Hids. unfold is_admin.
    rewrite (bool_decide_eq_true_2 (author_id ctx ∈ _)) by done.
    by destruct (_ && _).
Qed.

Lemma admin_commands_refuse_others_witness :
  let config := mkAdminConfig ["Mod"] [9] in
  let ctx := mkCtx None 1 7 "ann" ["Mod"] None in
  (author_id ctx ∉ admin_user_ids config)
  ∧ is_admin config ctx = false
  ∧ give_xp config ctx 7 "ann" 1000 Sample.w_gap = (Ok NoPermission, Sample.w_gap).
Proof.
  intros config ctx.
  assert (author_id ctx ∉ admin_user_ids config) as Hids.
  { intros Hin. apply list_elem_of_singleton in Hin. discriminate. }
  split; [exact Hids|].
  destruct (proj1 (admin_commands_refuse_others config ctx) Hids
              ltac:(discriminate) (or_introl eq_refl)) as [Hadmin Hrefuse].
  split; [exact Hadmin|].
  exact (proj1 (Hrefuse Sample.w_gap 7 "ann" 1000)).
Defined.

End CommandExtras.

(** ** Class tiers *)

Module TierExtras.
Import Curve Db Bot.

Lemma enumerate_snoc (tiers : list Tier) (t : Tier) :
  zip (seq 0 (length (tiers ++ [t]))) (tiers ++ [t])
  = zip (seq 0 (length tiers)) tiers ++ [(length tiers, t)].
Proof.
  rewrite length_app. cbn [length]. rewrite seq_app. cbn [seq Nat.add].
  by rewrite zip_with_app by (by rewrite length_seq).
Qed.

Lemma tier_index_loop_snoc level tiers t :
  tier_index_loop level (tiers ++ [t])
  = if bool_decide (tier_level t ≤ level) then length tiers
    else tier_index_loop level tiers.
Proof.
  unfold tier_index_loop. by rewrite enumerate_snoc, foldl_app.
Qed.

(** The index left by the loop: the last tier whose threshold is
    reached, or 0 when none is. *)
Lemma tier_index_loop_spec level tiers :
  let i := tier_index_loop level tiers in
  (tiers ≠ [] → (i < length tiers)%nat)
  ∧ (∀ j t, (i < j)%nat → tiers !! j = Some t → level < tier_level t)
  ∧ (i = 0%nat ∨ ∃ t, tiers !! i = Some t ∧ tier_level t ≤ level).
Proof.
  induction tiers as [|t tiers IH] using rev_ind.
  - cbn. split; [done|]. split; [|by left]. intros j t _ Hj. done.
  - cbv zeta. rewrite tier_index_loop_snoc, length_app. cbn [length].
    destruct IH as (Hlt & Hafter & Hreached).
    case_bool_decide as Ht.
    + split; [lia|]. split.
      * intros j t' Hj Hlookup. apply lookup_lt_Some in Hlookup.
        rewrite length_app in Hlookup. cbn in Hlookup. lia.
      * destruct tiers as [|t0 tiers']; [by left|]. right. exists t.
        split; [|done]. by rewrite lookup_app_r, Nat.sub_diag.
    + split; [|split].
      * intros _. destruct tiers as [|t0 tiers']; [cbn; lia|].
        specialize (Hlt ltac:(done)). lia.
      * intros j t' Hj Hlookup.
        destruct (decide (j < length tiers)%nat) as [Hin|Hout].
        -- rewrite lookup_app_l in Hlookup by done. by eapply Hafter.
        -- rewrite lookup_app_r in Hlookup by lia.
           destruct (j - length tiers)%nat as [|k] eqn:Hk; [|done].
           injection Hlookup as <-. lia.
      * destruct Hreached as [->|(t' & Hlookup & Hle)]; [by left|].
        right. exists t'. split; [|done].
        rewrite lookup_app_l; [done|]. by eapply lookup_lt_Some.
Qed.

(** X22. [get_class_tier_name] for a class of [CLASSES] at level 3 or
    more: with a non-empty list of tiers it returns the name and emoji
    of the tier it numbers, the number lies between 1 and the number of
    tiers, every later tier has a threshold above the level, and the
    tier itself has its threshold reached unless it is the first one
    (which is also returned below its own threshold); with an empty list
    of tiers the lookup fails. Below level 3, without a class and for
    [peasant] the answer is the peasant tier 1, and for a class missing
    from [CLASSES] the unknown tier 1. *)
Theorem class_tier_is_last_reached
    (CLASSES : gmap string (list Tier)) (c : string) (level : Z)
    (tiers : list Tier) :
  (c ≠ "" → c ≠ "peasant" → 3 ≤ level → CLASSES !! c = Some tiers →
     (tiers = [] → get_class_tier_name CLASSES (Some c) level = None)
     ∧ (tiers ≠ [] →
        ∃ (i : nat) t,
          tiers !! i = Some t
          ∧ get_class_tier_name CLASSES (Some c) level
            = Some (mkTierInfo (tier_name t) (tier_emoji t) (Z.of_nat i + 1))
          ∧ 1 ≤ Z.of_nat i + 1 ≤ Z.of_nat (length tiers)
          ∧ (∀ j t', (i < j)%nat → tiers !! j = Some t' → level < tier_level t')
          ∧ (i = 0%nat ∨ tier_level t ≤ level)))
  ∧ (level < 3 ∨ c = "" ∨ c = "peasant" →
     get_class_tier_name CLASSES (Some c) level
     = Some (mkTierInfo "Peasant" "👤" 1))
  ∧ get_class_tier_name CLASSES None level = Some (mkTierInfo "Peasant" "👤" 1)
  ∧ (c ≠ "" → c ≠ "peasant" → 3 ≤ level → CLASSES !! c = None →
     get_class_tier_name CLASSES (Some c) level
     = Some (mkTierInfo "Unknown" "❓" 1)).
Proof.
  assert (∀ X : option (list Tier),
            c ≠ "" → c ≠ "peasant" → 3 ≤ level → CLASSES !! c = X →
            get_class_tier_name CLASSES (Some c) level
            = match X with
              | None => Some (mkTierInfo "Unknown" "❓" 1)
              | Some tiers =>
                  tier_info ← tiers !! tier_index_loop level tiers;
                  Some (mkTierInfo (tier_name tier_info) (tier_emoji tier_info)
                          (Z.of_nat (tier_index_loop level tiers) + 1))
              end) as Hrun.
  { intros X Hne Hpeasant Hlevel Hlookup. unfold get_class_tier_name.
    cbn [truthy mbind option_bind]. rewrite Hlookup.
    rewrite (bool_decide_eq_false_2 (c = "")) by done.
    rewrite (bool_decide_eq_false_2 (Some c = Some "peasant")) by congruence.
    by rewrite (bool_decide_eq_false_2 (level < 3)) by lia. }
  split; [|split; [|split]].
  - intros Hne Hpeasant Hlevel Hlookup.
    rewrite (Hrun (Some tiers)) by done. split.
    + intros ->. reflexivity.
    + intros Hnonempty.
      destruct (tier_index_loop_spec level tiers) as (Hlt & Hafter & Hreached).
      specialize (Hlt Hnonempty).
      destruct (lookup_lt_is_Some_2 tiers _ Hlt) as [t Ht].
      exists (tier_index_loop level tiers), t.
      split; [done|]. split; [by rewrite Ht|]. split; [lia|].
      split; [done|].
      destruct Hreached as [?|(t' & Ht' & Hle)]; [by left|].
      right. congruence.
  - intros Hcase. unfold get_class_tier_name.
    destruct Hcase as [Hlt|[->| ->]].
    + rewrite (bool_decide_eq_true_2 (level < 3)) by done.
      by rewrite !orb_true_r.
    + done.
    + done.
  - done.
  - intros Hne Hpeasant Hlevel Hlookup. by rewrite (Hrun None).
Qed.

Lemma class_tier_is_last_reached_witness :
  let tiers := [mkTier "Acolyte" "a" 3; mkTier "Keeper" "k" 16;
                mkTier "Sage" "s" 36] in
  let CLASSES : gmap string (list Tier) := {[ "joy_keeper" := tiers ]} in
  3 ≤ 20
  ∧ tiers ≠ []
  ∧ ∃ (i : nat) t,
      tiers !! i = Some t
      ∧ get_class_tier_name CLASSES (Some "joy_keeper") 20
        = Some (mkTierInfo (tier_name t) (tier_emoji t) (Z.of_nat i + 1))
      ∧ 1 ≤ Z.of_nat i + 1 ≤ 3.
Proof.
  intros tiers CLASSES. split; [lia|]. split; [discriminate|].
  destruct (proj1 (class_tier_is_last_reached CLASSES "joy_keeper" 20 tiers)
              ltac:(discriminate) ltac:(discriminate) ltac:(lia) eq_refl)
    as [_ Hsome].
  destruct (Hsome ltac:(discriminate)) as (i & t & Ht & Hrun & Hrange & _).
  exists i, t. split; [exact Ht|]. split; [exact Hrun | exact Hrange].
Defined.

(** X23. The tier number never drops when the level rises, whatever
    the order of the thresholds in the list. *)
Theorem class_tier_monotone_in_level (tiers : list Tier) (level level' : Z) :
  level ≤ level' →
  (tier_index_loop level tiers ≤ tier_index_loop level' tiers)%nat.
Proof.
  intros Hle.
  destruct (tier_index_loop_spec level tiers) as (_ & _ & Hreached).
  destruct (tier_index_loop_spec level' tiers) as (_ & Hafter' & _).
  destruct Hreached as [->|(t & Ht & Hlevel)]; [lia|].
  destruct (decide (tier_index_loop level tiers
                    ≤ tier_index_loop level' tiers)%nat) as [|Hgt]; [done|].
  assert (level' < tier_level t) by (eapply Hafter'; [|exact Ht]; lia). lia.
Qed.

Lemma class_tier_monotone_in_level_witness :
  let tiers := [mkTier "Acolyte" "a" 3; mkTier "Keeper" "k" 16;
                mkTier "Sage" "s" 36] in
  5 ≤ 40
  ∧ (tier_index_loop 5 tiers ≤ tier_index_loop 40 tiers)%nat.
Proof.
  intros tiers. split; [lia|]. apply class_tier_monotone_in_level. lia.
Defined.

End TierExtras.
